(** * Meshtastic-Discord bridge: packet classifier, command router,
      cross-runtime bridge and connection supervisor

    A shallow embedding of [meshtastic_client.py], [message_handler.py],
    [discord_client.py] (the [!mesh] commands) and [main.py] (the reconnect
    loop), with the properties the specification states about them.

    Python values are modelled by [pyval]; string-keyed dictionaries are
    [gmap string pyval]; exceptions are an explicit result type [res]. *)

From Stdlib Require Import ZArith QArith Ascii String List Permutation Sorted.
From Stdlib Require Import Qround Lia.
From stdpp Require Import gmap strings list fin_maps.
Set Warnings "-register-all".

Open Scope Z_scope.
Open Scope string_scope.
Open Scope list_scope.

(** ** Python values *)

Module Py.

(** The values that occur in packets and node records: [None], booleans,
    integers, floats (finite ones, as exact rationals), strings (one
    [ascii] stands for one character) and string-keyed dictionaries. *)
Inductive pyval : Type :=
| PNone
| PBool (b : bool)
| PInt (z : Z)
| PFloat (q : Q)
| PStr (s : string)
| PDict (d : gmap string pyval).

(** Exceptions that the modelled operations raise. *)
Inductive exc : Type :=
  TypeError | AttributeError | KeyError | RuntimeError | ValueError.

(** A computation that returns or raises. *)
Inductive res (A : Type) : Type :=
| Ok (a : A)
| Raise (e : exc).
Arguments Ok {A} a.
Arguments Raise {A} e.

Definition bind {A B : Type} (m : res A) (k : A -> res B) : res B :=
  match m with
  | Ok a => k a
  | Raise e => Raise e
  end.

(** [try: ... except Exception: handler] around a computation. *)
Definition try_except {A : Type} (m : res A) (handler : exc -> A) : A :=
  match m with
  | Ok a => a
  | Raise e => handler e
  end.

(** Truth value testing ([if v:], [a or b], [not v]). *)
Definition truthy (v : pyval) : bool :=
  match v with
  | PNone => false
  | PBool b => b
  | PInt z => negb (Z.eqb z 0)
  | PFloat q => negb (Qeq_bool q 0)
  | PStr s => negb (String.eqb s EmptyString)
  | PDict d => negb (bool_decide (size d = 0%nat))
  end.

(** [a or b]: the first operand when it is true, else the second. *)
Definition py_or (a b : pyval) : pyval := if truthy a then a else b.

(** [v == 'literal'] for a string literal. *)
Definition py_eq_str (v : pyval) (s : string) : bool :=
  match v with
  | PStr s' => String.eqb s' s
  | _ => false
  end.

(** [d.get(k, dflt)] on a dictionary. *)
Definition dict_get (d : gmap string pyval) (k : string) (dflt : pyval) : pyval :=
  default dflt (d !! k).

(** [v.get(k, dflt)] on an arbitrary value: only dictionaries have [get]. *)
Definition py_get (v : pyval) (k : string) (dflt : pyval) : res pyval :=
  match v with
  | PDict d => Ok (dict_get d k dflt)
  | _ => Raise AttributeError
  end.

(** [sub in s] on strings. *)
Fixpoint str_contains (sub s : string) : bool :=
  String.prefix sub s ||
  match s with
  | EmptyString => false
  | String _ s' => str_contains sub s'
  end.

(** ['k' in v]: key membership for a dictionary, substring test for a
    string, [TypeError] otherwise. *)
Definition py_contains (v : pyval) (k : string) : res bool :=
  match v with
  | PDict d => Ok (bool_decide (is_Some (d !! k)))
  | PStr s => Ok (str_contains k s)
  | _ => Raise TypeError
  end.

(** [v['k']]: [KeyError] on a missing key, [TypeError] on a value that is
    not indexed by strings. *)
Definition py_getitem (v : pyval) (k : string) : res pyval :=
  match v with
  | PDict d => match d !! k with
               | Some x => Ok x
               | None => Raise KeyError
               end
  | _ => Raise TypeError
  end.

End Py.
Import Py.

(** [res] is a monad: stdpp's [x ← m; k] notation sequences calls that may
    raise. *)
#[global] Instance res_ret : MRet res := fun _ a => Ok a.
#[global] Instance res_bind : MBind res := fun _ _ k m => bind m k.

(** ** Effects

    The operations that act on the outside world return the list of what
    they did, oldest first. Logging below warning level is not modelled. *)

Module Effects.

(** The coroutines of [DiscordClient] that the message handler schedules. *)
Inductive coroutine : Type :=
| send_direct_message (message_data : gmap string pyval)
| send_telemetry (message_data : gmap string pyval)
| send_error_notification (error_message : string).

(** One field of the embed of the [nodes] command: the values that are
    formatted into its text, the signal quality only when there is one. *)
Record node_field : Type := {
  field_long_name : pyval;
  field_short_name : pyval;
  field_node_id : pyval;
  field_hw_model : pyval;
  field_snr : option pyval;
  field_hops : pyval
}.

(** What a [!mesh] command sends back with [ctx.send]. *)
Inductive reply : Type :=
| ReplyNotAvailable
| ReplyTooLong (len : nat)
| ReplySent (message : string)
| ReplySendFailed
| ReplySendError
| ReplyNodes (total : nat) (fields : list node_field)
| ReplyNoNodes
| ReplyNodesError.

Inductive level : Type := WARNING | ERROR.

Inductive event : Type :=
| EvLog (lvl : level) (msg : string)
| EvReply (r : reply)
| EvSubscribe
| EvOpen (device_path : string) (ok : bool)
| EvClose
| EvSendText (text : string) (destinationId : option string)
| EvRunCoroutine (coro : coroutine)
| EvSetupCallbacks
| EvSleep (seconds : Z).

(** The time a trace takes at least: [time.sleep(d)] blocks for [d]
    seconds, everything else for no less than none. *)
Fixpoint elapsed (trace : list event) : Z :=
  match trace with
  | [] => 0
  | EvSleep d :: rest => d + elapsed rest
  | _ :: rest => elapsed rest
  end.

(** The number of times a trace opens the device. *)
Fixpoint connect_attempts (trace : list event) : nat :=
  match trace with
  | [] => 0
  | EvOpen _ _ :: rest => S (connect_attempts rest)
  | _ :: rest => connect_attempts rest
  end.

Definition is_send_text (e : event) : bool :=
  match e with
  | EvSendText _ _ => true
  | _ => false
  end.

End Effects.
Import Effects.

(** ** meshtastic_client.py: the packet classifier *)

Module MeshtasticClient.

(** The node cache [interface.nodes]: a dictionary whose keys are display
    ids (strings) or node numbers (integers). *)
Abbreviation node_key := (string + Z)%type.

(** The part of [SerialInterface] the client uses: the node cache, in the
    order of the dictionary, and whether [sendText(text)] returns rather
    than raises. *)
Record SerialInterface : Type := {
  nodes : list (node_key * pyval);
  sendText_ok : string -> bool
}.

(** Lookup in a dictionary given by its items. *)
Fixpoint assoc (key : node_key) (items : list (node_key * pyval))
  : option pyval :=
  match items with
  | [] => None
  | (k, v) :: rest => if decide (k = key) then Some v else assoc key rest
  end.

(** The dictionary key a value hashes to: [True == 1] and [5.0 == 5] select
    the integer key; [None] and fractional floats are hashable but are no
    key of the cache; dictionaries are unhashable. *)
Definition hash_key (k : pyval) : res (option node_key) :=
  match k with
  | PStr s => Ok (Some (inl s))
  | PInt z => Ok (Some (inr z))
  | PBool b => Ok (Some (inr (Z.b2z b)))
  | PFloat q =>
      if Z.eqb (Qnum q mod Z.pos (Qden q)) 0
      then Ok (Some (inr (Qnum q / Z.pos (Qden q))))
      else Ok None
  | PNone => Ok None
  | PDict _ => Raise TypeError
  end.

(** [self.interface.nodes.get(k)] *)
Definition nodes_get (iface : SerialInterface) (k : pyval) : res pyval :=
  hk ← hash_key k;
  match hk with
  | Some key => Ok (default PNone (assoc key (nodes iface)))
  | None => Ok PNone
  end.

(** Line 116: [self.interface.nodes.get(from_id) or
    self.interface.nodes.get(from_num)]. The second lookup runs only when
    the first gave nothing true. *)
Definition cached_node (iface : SerialInterface) (from_id from_num : pyval)
  : res pyval :=
  by_id ← nodes_get iface from_id;
  if truthy by_id then Ok by_id else nodes_get iface from_num.

(** Lines 117-123: the name a cache entry gives,
    [longName or shortName or from_id], when the entry is true and has a
    ['user']; [from_id] otherwise. *)
Definition name_of_node (node from_id : pyval) : res pyval :=
  if truthy node then
    has_user ← py_contains node "user";
    if has_user : bool then
      user ← py_getitem node "user";
      longName ← py_get user "longName" PNone;
      user' ← py_getitem node "user";
      shortName ← py_get user' "shortName" PNone;
      Ok (py_or longName (py_or shortName from_id))
    else Ok from_id
  else Ok from_id.

(** Lines 110-125: [from_name] starts as [from_id]; the lookup runs only
    when the interface is set and [from_num] is true; an exception inside
    it is logged and leaves [from_name] as it was. *)
Definition resolve_from_name (interface : option SerialInterface)
    (from_id from_num : pyval) : pyval :=
  match interface with
  | Some iface =>
      if truthy from_num
      then try_except
             (node ← cached_node iface from_id from_num;
              name_of_node node from_id)
             (fun _ => from_id)
      else from_id
  | None => from_id
  end.

(** The dictionary returned for a text message (lines 134-142). *)
Definition direct_message_dict (from_name from_num to_id text rx_time : pyval)
    (packet : gmap string pyval) : gmap string pyval :=
  <["type" := PStr "direct_message"]>
  (<["from_id" := from_name]>
  (<["from_num" := from_num]>
  (<["to_id" := to_id]>
  (<["text" := text]>
  (<["timestamp" := rx_time]>
  (<["raw_packet" := PDict packet]> ∅)))))).

(** The dictionary returned for device telemetry (lines 150-161). *)
Definition telemetry_dict (from_name from_num battery_level voltage
    channel_utilization air_util_tx uptime_seconds rx_time : pyval)
    (packet : gmap string pyval) : gmap string pyval :=
  <["type" := PStr "telemetry"]>
  (<["from_id" := from_name]>
  (<["from_num" := from_num]>
  (<["battery_level" := battery_level]>
  (<["voltage" := voltage]>
  (<["channel_utilization" := channel_utilization]>
  (<["air_util_tx" := air_util_tx]>
  (<["uptime_seconds" := uptime_seconds]>
  (<["timestamp" := rx_time]>
  (<["raw_packet" := PDict packet]> ∅))))))))).

(** The [try] body of [_process_packet(self, packet)] (lines 96-179).
    [interface] is [self.interface] and [now] is what [int(time.time())]
    returns during the call. The result is the message dictionary or
    [None], or the exception that leaves the body. *)
Definition _process_packet_body (interface : option SerialInterface)
    (now : Z) (packet : gmap string pyval)
  : res (option (gmap string pyval)) :=
  match packet !! "decoded" with
  | None => Ok None
  | Some decoded =>
      portnum ← py_get decoded "portnum" PNone;
      let from_id := dict_get packet "fromId" (PStr "Unknown") in
      let from_num := dict_get packet "from" (PInt 0) in
      let to_id := dict_get packet "toId" (PStr "Unknown") in
      let from_name := resolve_from_name interface from_id from_num in
      let rx_time := dict_get packet "rxTime" (PInt now) in
      if py_eq_str portnum "TEXT_MESSAGE_APP" then
        text ← py_get decoded "text" (PStr EmptyString);
        Ok (Some (direct_message_dict from_name from_num to_id text
                    rx_time packet))
      else if py_eq_str portnum "TELEMETRY_APP" then
        telemetry_data ← py_get decoded "telemetry" (PDict ∅);
        device_metrics ← py_get telemetry_data "deviceMetrics" PNone;
        if truthy device_metrics then
          battery_level ← py_get device_metrics "batteryLevel" PNone;
          voltage ← py_get device_metrics "voltage" PNone;
          channel_utilization ←
            py_get device_metrics "channelUtilization" PNone;
          air_util_tx ← py_get device_metrics "airUtilTx" PNone;
          uptime_seconds ← py_get device_metrics "uptimeSeconds" PNone;
          Ok (Some (telemetry_dict from_name from_num battery_level voltage
                      channel_utilization air_util_tx uptime_seconds
                      rx_time packet))
        else Ok None
      else if py_eq_str portnum "NODEINFO_APP" then Ok None
      else if py_eq_str portnum "POSITION_APP" then Ok None
      else Ok None
  end.

(** [_process_packet(self, packet)]: the value returned. The outer
    [except] (lines 181-183) turns every exception into [None]. *)
Definition _process_packet (interface : option SerialInterface) (now : Z)
    (packet : gmap string pyval) : option (gmap string pyval) :=
  try_except (_process_packet_body interface now packet) (fun _ => None).

(** What [_process_packet] logs at warning level or above: the error of
    line 182, when an exception leaves the body. *)
Definition _process_packet_log (interface : option SerialInterface)
    (now : Z) (packet : gmap string pyval) : list event :=
  match _process_packet_body interface now packet with
  | Ok _ => []
  | Raise _ => [EvLog ERROR "Error processing packet"]
  end.

(** A field of the classifier's result, when there is a result. *)
Definition msg_field (k : string) (r : option (gmap string pyval))
  : option pyval :=
  r ≫= (.!! k).

(** The kind discriminator of a packet: [decoded.get('portnum')], when the
    packet has a decoded payload that is a mapping. *)
Definition portnum_of (packet : gmap string pyval) : option pyval :=
  match packet !! "decoded" with
  | Some (PDict decoded) => Some (dict_get decoded "portnum" PNone)
  | _ => None
  end.

(** The device-metrics sub-object of a packet,
    [decoded.get('telemetry', {}).get('deviceMetrics')], when it is a
    mapping. *)
Definition device_metrics_of (packet : gmap string pyval)
  : option (gmap string pyval) :=
  match packet !! "decoded" with
  | Some (PDict decoded) =>
      match dict_get decoded "telemetry" (PDict ∅) with
      | PDict telemetry_data =>
          match telemetry_data !! "deviceMetrics" with
          | Some (PDict device_metrics) => Some device_metrics
          | _ => None
          end
      | _ => None
      end
  | _ => None
  end.

(** The five device metrics the classifier copies. *)
Definition metric_fields : list string :=
  ["batteryLevel"; "voltage"; "channelUtilization"; "airUtilTx";
   "uptimeSeconds"].

(** The specification's condition for a telemetry message: at least one of
    the five metrics is present in the device-metrics sub-object. *)
Definition any_metric_present (packet : gmap string pyval) : bool :=
  match device_metrics_of packet with
  | Some device_metrics =>
      existsb (fun k => bool_decide (is_Some (device_metrics !! k)))
        metric_fields
  | None => false
  end.

(** The specification's name resolution, in its words: the sender is looked
    up in the node cache by numeric id; the name is the entry's long name
    if present, else its short name if present, else the raw sender id;
    a sender that is not in the cache gets the raw sender id. *)
Definition display_name_by_numeric_id (iface : SerialInterface)
    (from_id : pyval) (from_num : Z) : pyval :=
  match assoc (inr from_num) (nodes iface) with
  | Some (PDict node) =>
      match node !! "user" with
      | Some (PDict user) =>
          match user !! "longName", user !! "shortName" with
          | Some longName, _ => longName
          | None, Some shortName => shortName
          | None, None => from_id
          end
      | _ => from_id
      end
  | _ => from_id
  end.

(** The client object: [device_path], [interface] and [connected]. *)
Record MeshtasticClient : Type := {
  device_path : string;
  interface : option SerialInterface;
  connected : bool
}.

(** [__init__] *)
Definition new_client (path : string) : MeshtasticClient :=
  {| device_path := path; interface := None; connected := false |}.

(** What the device does when [connect] opens it: the constructor of the
    interface raises; or it returns and [getMyNodeInfo()] raises; or both
    return, with node info or with none (the [return True] of line 59 is
    outside the [if node_info:]). *)
Inductive open_outcome : Type :=
| OpenRaises
| NodeInfoRaises (iface : SerialInterface)
| Opened (iface : SerialInterface).

(** [connect(self)]: subscribe to the packet feed, open the serial
    interface, read the node info. Any exception is logged and gives
    [False]. *)
Definition connect (self : MeshtasticClient) (o : open_outcome)
  : bool * MeshtasticClient * list event :=
  match o with
  | OpenRaises =>
      (false,
       {| device_path := device_path self; interface := interface self;
          connected := false |},
       [EvSubscribe; EvOpen (device_path self) false;
        EvLog ERROR "Failed to connect to Meshtastic device"])
  | NodeInfoRaises iface =>
      (false,
       {| device_path := device_path self; interface := Some iface;
          connected := false |},
       [EvSubscribe; EvOpen (device_path self) true;
        EvLog ERROR "Failed to connect to Meshtastic device"])
  | Opened iface =>
      (true,
       {| device_path := device_path self; interface := Some iface;
          connected := true |},
       [EvSubscribe; EvOpen (device_path self) true])
  end.

(** [disconnect(self)] (lines 185-195). With an interface, [close()] is
    called, and [close_returns] tells whether this call returns or raises.
    When it returns, [interface] and [connected] are cleared; when it
    raises, the two assignments are skipped and the [except] logs the
    error, so the client is left as it was. [EvClose] is the call of
    [close()]. *)
Definition disconnect (self : MeshtasticClient) (close_returns : bool)
  : MeshtasticClient * list event :=
  match interface self with
  | Some _ =>
      if close_returns then
        ({| device_path := device_path self; interface := None;
            connected := false |},
         [EvClose])
      else
        (self,
         [EvClose; EvLog ERROR "Error disconnecting from Meshtastic device"])
  | None =>
      ({| device_path := device_path self; interface := None;
          connected := false |},
       [])
  end.

(** [is_connected(self)] *)
Definition is_connected (self : MeshtasticClient) : bool :=
  connected self && bool_decide (is_Some (interface self)).

(** [send_text(self, text, destination)]: [False] when not connected or
    when the interface raises. *)
Definition send_text (self : MeshtasticClient) (text : string)
    (destination : option string) : bool * list event :=
  if negb (is_connected self) then
    (false, [EvLog ERROR "Cannot send message: not connected to device"])
  else
    match interface self with
    | Some iface =>
        let destinationId :=
          match destination with
          | Some d => if String.eqb d EmptyString then None else Some d
          | None => None
          end in
        if sendText_ok iface text
        then (true, [EvSendText text destinationId])
        else (false, [EvSendText text destinationId;
                      EvLog ERROR "Error sending text message"])
    | None => (false, [EvLog ERROR "Error sending text message"])
    end.

(** [list_nodes(self)] *)
Definition list_nodes (self : MeshtasticClient) : list pyval * list event :=
  if negb (is_connected self) then
    ([], [EvLog ERROR "Cannot list nodes: not connected to device"])
  else
    match interface self with
    | Some iface => (map snd (nodes iface), [])
    | None => ([], [EvLog ERROR "Error listing nodes"])
    end.

(** [_on_receive(self, packet, interface)] (lines 66-84): classify the
    packet, which logs an error when the classification raises, and hand a
    message to [self.message_callback], here the argument
    [message_callback]; an exception of the callback is logged and goes no
    further. *)
Definition _on_receive (self : MeshtasticClient) (now : Z)
    (message_callback : gmap string pyval -> res unit * list event)
    (packet : gmap string pyval) : list event :=
  _process_packet_log (interface self) now packet ++
  match _process_packet (interface self) now packet with
  | Some processed_message =>
      if truthy (PDict processed_message) then
        match message_callback processed_message with
        | (Ok _, evs) => evs
        | (Raise _, evs) =>
            evs ++ [EvLog ERROR "Error processing received packet"]
        end
      else []
  | None => []
  end.

End MeshtasticClient.
Import MeshtasticClient.

(** ** message_handler.py: the bridge into the event loop *)

Module MessageHandler.

(** The asyncio event loop the handler was given; a closed loop refuses
    new work. *)
Record AbstractEventLoop : Type := { is_closed : bool }.

Record MessageHandler : Type := { loop : option AbstractEventLoop }.

(** [__init__]: no loop yet. *)
Definition new_handler : MessageHandler := {| loop := None |}.

(** [set_event_loop(self, loop)] *)
Definition set_event_loop (self : MessageHandler) (l : AbstractEventLoop)
  : MessageHandler :=
  {| loop := Some l |}.

(** [asyncio.run_coroutine_threadsafe(coro, loop)] *)
Definition run_coroutine_threadsafe (coro : coroutine) (l : AbstractEventLoop)
  : res unit * list event :=
  if is_closed l then (Raise RuntimeError, [])
  else (Ok tt, [EvRunCoroutine coro]).

(** [_schedule_discord_task(self, coro)]: what the call returns or raises,
    the handler after the call, and what the call did. *)
Definition _schedule_discord_task (self : MessageHandler) (coro : coroutine)
  : res unit * MessageHandler * list event :=
  match loop self with
  | None =>
      (Ok tt, self,
       [EvLog ERROR "Event loop not set, cannot schedule Discord task"])
  | Some l =>
      match run_coroutine_threadsafe coro l with
      | (Ok _, evs) => (Ok tt, self, evs)
      | (Raise _, evs) =>
          (Ok tt, self, evs ++ [EvLog ERROR "Error scheduling Discord task"])
      end
  end.

(** [send_error_to_discord(self, error_message)] *)
Definition send_error_to_discord (self : MessageHandler)
    (error_message : string) : res unit * MessageHandler * list event :=
  match _schedule_discord_task self (send_error_notification error_message) with
  | (Ok _, self', evs) => (Ok tt, self', evs)
  | (Raise _, self', evs) =>
      (Ok tt, self', evs ++ [EvLog ERROR "Error sending error notification"])
  end.

(** [handle_message(self, message_data)] (lines 32-65) *)
Definition handle_message (self : MessageHandler)
    (message_data : gmap string pyval) : res unit * list event :=
  let message_type := dict_get message_data "type" PNone in
  let schedule coro :=
    match _schedule_discord_task self coro with
    | (Ok _, _, evs) => (Ok tt, evs)
    | (Raise _, _, evs) => (Ok tt, evs ++ [EvLog ERROR "Error handling message"])
    end in
  if negb (truthy message_type) then
    (Ok tt, [EvLog WARNING "Received message with no type, skipping"])
  else if py_eq_str message_type "direct_message" then
    schedule (send_direct_message message_data)
  else if py_eq_str message_type "telemetry" then
    schedule (send_telemetry message_data)
  else (Ok tt, [EvLog WARNING "Unknown message type"]).

(** The coroutines a trace hands to the event loop, in order. *)
Fixpoint coroutines (trace : list event) : list coroutine :=
  match trace with
  | [] => []
  | EvRunCoroutine coro :: rest => coro :: coroutines rest
  | _ :: rest => coroutines rest
  end.

End MessageHandler.
Import MessageHandler.

(** ** discord_client.py: the [!mesh send] and [!mesh nodes] commands *)

Module DiscordClient.

(** A callback into the bridge: a bound method that reads the bridge's
    current Meshtastic client. *)
Definition callback (A : Type) : Type :=
  option MeshtasticClient -> res A * list event.

Record DiscordClient : Type := {
  channel_id : Z;
  send_mesh_message_callback : option (string -> callback bool);
  list_nodes_callback : option (callback (list pyval))
}.

(** [set_meshtastic_callbacks] *)
Definition set_meshtastic_callbacks (self : DiscordClient)
    (send_message : string -> callback bool)
    (list_nodes : callback (list pyval)) : DiscordClient :=
  {| channel_id := channel_id self;
     send_mesh_message_callback := Some send_message;
     list_nodes_callback := Some list_nodes |}.

(** The [send] command (lines 135-170), issued in the channel
    [ctx_channel_id] while the bridge's client is [mesh]. *)
Definition send (self : DiscordClient) (mesh : option MeshtasticClient)
    (ctx_channel_id : Z) (message : string) : list event :=
  if negb (Z.eqb ctx_channel_id (channel_id self)) then []
  else
    match send_mesh_message_callback self with
    | None => [EvReply ReplyNotAvailable]
    | Some send_message =>
        if (240 <? String.length message)%nat then
          [EvReply (ReplyTooLong (String.length message))]
        else
          match send_message message mesh with
          | (Ok success, evs) =>
              evs ++ [EvReply (if success : bool then ReplySent message
                               else ReplySendFailed)]
          | (Raise _, evs) =>
              evs ++ [EvLog ERROR "Error in send command";
                      EvReply ReplySendError]
          end
    end.

(** The number a sort key stands for, when it is a number. *)
Definition as_number (v : pyval) : option Q :=
  match v with
  | PInt z => Some (inject_Z z)
  | PFloat q => Some q
  | PBool b => Some (inject_Z (Z.b2z b))
  | _ => None
  end.

(** [a < b]: numbers compare by value, strings by their characters,
    anything else raises [TypeError]. *)
Definition py_lt (a b : pyval) : res bool :=
  match a, b with
  | PStr x, PStr y => Ok (String.ltb x y)
  | _, _ =>
      match as_number a, as_number b with
      | Some x, Some y => Ok (negb (Qle_bool y x))
      | _, _ => Raise TypeError
      end
  end.

(** [sorted(items, key=key, reverse=True)]: the keys are computed first;
    the sort is stable and uses [<] on keys only. An item goes in front of
    the first item of the sorted rest whose key is not greater. *)
Section Sorted.

Context (key : pyval -> res pyval).

Fixpoint decorate (items : list pyval) : res (list (pyval * pyval)) :=
  match items with
  | [] => Ok []
  | x :: rest =>
      k ← key x;
      rest' ← decorate rest;
      Ok ((k, x) :: rest')
  end.

Fixpoint insert_desc (kx : pyval * pyval) (sorted : list (pyval * pyval))
  : res (list (pyval * pyval)) :=
  match sorted with
  | [] => Ok [kx]
  | ky :: rest =>
      lt ← py_lt (fst kx) (fst ky);
      if lt : bool then
        rest' ← insert_desc kx rest;
        Ok (ky :: rest')
      else Ok (kx :: ky :: rest)
  end.

Fixpoint sort_desc (items : list (pyval * pyval))
  : res (list (pyval * pyval)) :=
  match items with
  | [] => Ok []
  | kx :: rest =>
      sorted ← sort_desc rest;
      insert_desc kx sorted
  end.

Definition sorted_reverse (items : list pyval) : res (list pyval) :=
  decorated ← decorate items;
  sorted ← sort_desc decorated;
  Ok (map snd sorted).

End Sorted.

(** [lambda x: x.get('snr', -999)] *)
Definition snr_key (x : pyval) : res pyval := py_get x "snr" (PInt (-999)).

(** Lines 194-198. *)
Definition sorted_nodes (nodes_list : list pyval) : res (list pyval) :=
  sorted_reverse snr_key nodes_list.

(** [v is not None] *)
Definition is_not_none (v : pyval) : bool :=
  match v with
  | PNone => false
  | _ => true
  end.

(** A value that the format [.2f] or [.1f] accepts, also after a
    multiplication by 100: a number. Anything else raises. *)
Definition formats_as_float (v : pyval) : bool :=
  bool_decide (is_Some (as_number v)).

(** [f"{v:.1f}"]: a number is printed; a string raises [ValueError],
    [None] and a dictionary raise [TypeError]. *)
Definition format_float (v : pyval) : res pyval :=
  match v with
  | PStr _ => Raise ValueError
  | _ => if formats_as_float v then Ok v else Raise TypeError
  end.

(** Lines 202-215: the field of one node. [user.get] raises when
    [node.get('user', {})] is no mapping; the signal quality is formatted
    only when it is not [None], and the format raises when it is no
    number. *)
Definition node_info (node : pyval) : res node_field :=
  user ← py_get node "user" (PDict ∅);
  node_id ← py_get user "id" (PStr "Unknown");
  long_name ← py_get user "longName" (PStr "Unknown");
  short_name ← py_get user "shortName" (PStr "???");
  hw_model ← py_get user "hwModel" (PStr "Unknown");
  snr ← py_get node "snr" PNone;
  hops ← py_get node "hopsAway" (PStr "?");
  shown_snr ← (if is_not_none snr
               then printed ← format_float snr; Ok (Some printed)
               else Ok None);
  Ok {| field_long_name := long_name; field_short_name := short_name;
        field_node_id := node_id; field_hw_model := hw_model;
        field_snr := shown_snr; field_hops := hops |}.

(** Lines 201-221: the loop over the nodes shown, which adds one field
    per node and stops at the first exception. *)
Fixpoint node_fields (shown : list pyval) : res (list node_field) :=
  match shown with
  | [] => Ok []
  | node :: rest =>
      field ← node_info node;
      fields ← node_fields rest;
      Ok (field :: fields)
  end.

(** The [nodes] command (lines 172-234). The embed is given by the number
    of nodes and by its fields, one for each of the first 25 nodes of the
    sorted list; an exception of the sort or of the loop over these nodes
    is logged and answered with the error reply. [ctx.send] is taken to
    return. *)
Definition nodes_command (self : DiscordClient) (mesh : option MeshtasticClient)
    (ctx_channel_id : Z) : list event :=
  if negb (Z.eqb ctx_channel_id (channel_id self)) then []
  else
    match list_nodes_callback self with
    | None => [EvReply ReplyNotAvailable]
    | Some list_nodes =>
        match list_nodes mesh with
        | (Ok [], evs) => evs ++ [EvReply ReplyNoNodes]
        | (Ok nodes_list, evs) =>
            match sorted ← sorted_nodes nodes_list;
                  node_fields (take 25 sorted) with
            | Ok fields =>
                evs ++ [EvReply (ReplyNodes (length nodes_list) fields)]
            | Raise _ =>
                evs ++ [EvLog ERROR "Error in nodes command";
                        EvReply ReplyNodesError]
            end
        | (Raise _, evs) =>
            evs ++ [EvLog ERROR "Error in nodes command";
                    EvReply ReplyNodesError]
        end
    end.

(** The signal quality of a node record: its ['snr'] when it has one that
    is a number. *)
Definition snr_of (node : pyval) : option Q :=
  match node with
  | PDict d => d !! "snr" ≫= as_number
  | _ => None
  end.

(** A node record as the device library gives it: a mapping whose ['snr'],
    when there is one, is a number. *)
Definition node_record (node : pyval) : Prop :=
  match node with
  | PDict d =>
      match d !! "snr" with
      | Some v => is_Some (as_number v)
      | None => True
      end
  | _ => False
  end.

(** The key the sort compares: the signal quality, or -999 when it is not
    known. *)
Definition sort_value (node : pyval) : Q :=
  default (inject_Z (-999)) (snr_of node).

Definition snr_unknown (node : pyval) : bool :=
  match snr_of node with
  | Some _ => false
  | None => true
  end.

(** The value of the item of a decorated pair. *)
Definition item_value (kx : pyval * pyval) : Q := sort_value kx.2.

(** A decorated pair whose key is the number its item sorts by. *)
Definition keyed (kx : pyval * pyval) : Prop :=
  as_number kx.1 = Some (item_value kx).

(** Descending order of sort values. *)
Definition desc (a b : pyval) : Prop := (sort_value b <= sort_value a)%Q.

(** The records whose sort value is [q]. *)
Definition same_value (q : Q) (x : pyval) : bool := Qeq_bool (sort_value x) q.

(** The replies in a trace, in order. *)
Fixpoint replies (trace : list event) : list reply :=
  match trace with
  | [] => []
  | EvReply r :: rest => r :: replies rest
  | _ :: rest => replies rest
  end.

(** One line of the description of a telemetry embed, given by the values
    it shows; how a number is printed is not modelled. *)
Inductive desc_part : Type :=
| BatteryVoltagePart (battery voltage : pyval)
| BatteryPart (battery : pyval)
| VoltagePart (voltage : pyval)
| ChannelPart (channel_util : pyval)
| AirPart (air_util : pyval)
| UptimePart (hours : option pyval) (minutes : pyval).

Inductive description : Type :=
| NoMetricsAvailable
| Lines (desc_parts : list desc_part).

(** [a // n] and [a % n] for a positive integer [n]: on integers and
    booleans the floor division and the remainder of integers, on floats
    those of the value; [None] when the operation raises. *)
Definition py_floordiv (a : pyval) (n : Z) : option pyval :=
  match a with
  | PInt z => Some (PInt (z / n))
  | PBool b => Some (PInt (Z.b2z b / n))
  | PFloat q => Some (PFloat (inject_Z (Qfloor (q / inject_Z n)%Q)))
  | _ => None
  end.

Definition py_mod (a : pyval) (n : Z) : option pyval :=
  match a with
  | PInt z => Some (PInt (z mod n))
  | PBool b => Some (PInt (Z.b2z b mod n))
  | PFloat q =>
      Some (PFloat (q - inject_Z n * inject_Z (Qfloor (q / inject_Z n)))%Q)
  | _ => None
  end.

(** [v > 0] on a number. *)
Definition py_positive (v : pyval) : option bool :=
  match as_number v with
  | Some q => Some (negb (Qle_bool q 0))
  | None => None
  end.

(** Lines 428-436 of [send_telemetry]: the uptime in hours and minutes,
    the hours only when there are any. *)
Definition uptime_part (uptime : pyval) : option desc_part :=
  hours ← py_floordiv uptime 3600;
  rest ← py_mod uptime 3600;
  minutes ← py_floordiv rest 60;
  some_hours ← py_positive hours;
  Some (UptimePart (if some_hours : bool then Some hours else None) minutes).

(** Lines 415-420 of [send_telemetry]: battery and voltage share a line;
    [None] when formatting the voltage raises. *)
Definition power_parts (battery voltage : pyval) : option (list desc_part) :=
  if is_not_none battery && is_not_none voltage then
    if formats_as_float voltage
    then Some [BatteryVoltagePart battery voltage] else None
  else if is_not_none battery then Some [BatteryPart battery]
  else if is_not_none voltage then
    if formats_as_float voltage then Some [VoltagePart voltage] else None
  else Some [].

(** Lines 422-426: a line for a value that is there and is printed as a
    float. *)
Definition float_parts (line : pyval -> desc_part) (v : pyval)
  : option (list desc_part) :=
  if is_not_none v then
    if formats_as_float v then Some [line v] else None
  else Some [].

(** Lines 428-436. *)
Definition uptime_parts (uptime : pyval) : option (list desc_part) :=
  if is_not_none uptime then part ← uptime_part uptime; Some [part]
  else Some [].

(** Lines 405-438 of [send_telemetry]: the description of the embed, or
    [None] when building it raises (the coroutine then logs the error and
    sends nothing). *)
Definition telemetry_description (message_data : gmap string pyval)
  : option description :=
  let battery := dict_get message_data "battery_level" PNone in
  let voltage := dict_get message_data "voltage" PNone in
  let channel_util := dict_get message_data "channel_utilization" PNone in
  let air_util := dict_get message_data "air_util_tx" PNone in
  let uptime := dict_get message_data "uptime_seconds" PNone in
  power ← power_parts battery voltage;
  channel ← float_parts ChannelPart channel_util;
  air ← float_parts AirPart air_util;
  up ← uptime_parts uptime;
  match power ++ channel ++ air ++ up with
  | [] => Some NoMetricsAvailable
  | desc_parts => Some (Lines desc_parts)
  end.

(** A value that has [get]: a mapping. *)
Definition is_mapping (v : pyval) : bool :=
  match v with
  | PDict _ => true
  | _ => false
  end.

(** A mapping whose [get('user', {})] is a mapping. *)
Definition user_is_mapping (node : pyval) : bool :=
  match node with
  | PDict d => is_mapping (dict_get d "user" (PDict ∅))
  | _ => false
  end.

End DiscordClient.
Import DiscordClient.

(** ** config.py *)

Module Config.

Record Config : Type := {
  meshtastic_device : string;
  reconnect_delay : Z
}.

(** [_validate]: a reconnect delay below one second is replaced by five. *)
Definition _validate (self : Config) : Config :=
  {| meshtastic_device := meshtastic_device self;
     reconnect_delay :=
       if Z.ltb (reconnect_delay self) 1 then 5 else reconnect_delay self |}.

(** The log levels [_validate] accepts. *)
Definition valid_log_levels : list string :=
  ["DEBUG"; "INFO"; "WARNING"; "ERROR"; "CRITICAL"].

(** Lines 56-63 of [_validate]: a log level that is not one of the five is
    replaced by INFO. *)
Definition validate_log_level (log_level : string) : string :=
  if existsb (String.eqb log_level) valid_log_levels then log_level
  else "INFO".

End Config.
Import Config.

(** ** main.py: the callbacks and the reconnect loop *)

Module Bridge.

(** [_send_mesh_message(self, message)] *)
Definition _send_mesh_message (message : string) : callback bool :=
  fun meshtastic_client =>
    match meshtastic_client with
    | Some client =>
        if is_connected client then
          let '(sent, evs) := send_text client message None in (Ok sent, evs)
        else (Ok false, [])
    | None => (Ok false, [])
    end.

(** [_list_nodes(self)] *)
Definition _list_nodes : callback (list pyval) :=
  fun meshtastic_client =>
    match meshtastic_client with
    | Some client =>
        if is_connected client then
          let '(l, evs) := list_nodes client in (Ok l, evs)
        else (Ok [], [])
    | None => (Ok [], [])
    end.

(** [_setup_callbacks(self)] *)
Definition _setup_callbacks (discord_client : DiscordClient) : DiscordClient :=
  set_meshtastic_callbacks discord_client _send_mesh_message _list_nodes.

(** What happens after a successful connect: [polls] one-second sleeps of
    the keep-alive loop (lines 149-150), and then the client is found no
    longer connected while the flag is set, or the flag is found cleared,
    or an exception leaves the [try] body. Nothing in [MeshtasticClient]
    but [connect] and [disconnect] writes [connected] or [interface], so a
    client that is found no longer connected has been disconnected from
    outside the loop. *)
Inductive session : Type :=
| LinkLost (polls : nat)
| FlagCleared (polls : nat)
| Raised (polls : nat).

(** What one pass of [while self.running] meets: the outcome of opening
    the device, whether the Discord client is ready, the session when the
    connect succeeds, whether the client has been disconnected from
    outside the loop by the time the [finally] runs (as [shutdown] does
    right after it clears the flag, lines 195-199), whether the [close()]
    that the [finally] may call returns, and the flag as [if self.running]
    (line 175) reads it. *)
Record iteration : Type := {
  outcome : open_outcome;
  discord_ready : bool;
  kept : session;
  disconnected_outside : bool;
  close_returns : bool;
  running_after : bool
}.

Definition connection_lost_notice : string :=
  "Meshtastic device connection lost. Attempting to reconnect...".

(** Lines 155-165: the warning and the error notice. *)
Definition notify_lost (handler : MessageHandler) : list event :=
  EvLog WARNING "Meshtastic connection lost." ::
  (send_error_to_discord handler connection_lost_notice).2.

(** The client as a [disconnect] from outside the loop, whose [close()]
    returned, leaves it. The events of that call belong to the thread that
    makes it and are no part of the trace of the loop. *)
Definition disconnected (client : MeshtasticClient) : MeshtasticClient :=
  (disconnect client true).1.

(** The client as the [finally] finds it. A connection that was found
    lost has been disconnected from outside. *)
Definition client_at_finally (pass : iteration) (client : MeshtasticClient)
  : MeshtasticClient :=
  match outcome pass, kept pass with
  | Opened _, LinkLost _ => disconnected client
  | _, _ => if disconnected_outside pass then disconnected client else client
  end.

(** Lines 170-172: the [finally]. *)
Definition finally (pass : iteration) (client : MeshtasticClient)
  : list event :=
  (disconnect (client_at_finally pass client) (close_returns pass)).2.

(** One pass, from the new client to the end of the [finally]. *)
Definition pass_events (config : Config) (handler : MessageHandler)
    (pass : iteration) : list event :=
  let client := new_client (meshtastic_device config) in
  let '(ok, client, evs) := connect client (outcome pass) in
  if ok then
    let setup := if discord_ready pass then [EvSetupCallbacks] else [] in
    match kept pass with
    | LinkLost polls =>
        evs ++ setup ++ replicate polls (EvSleep 1) ++
        notify_lost handler ++ finally pass client
    | FlagCleared polls =>
        evs ++ setup ++ replicate polls (EvSleep 1) ++ finally pass client
    | Raised polls =>
        evs ++ setup ++ replicate polls (EvSleep 1) ++
        EvLog ERROR "Error in Meshtastic client" :: finally pass client
    end
  else evs ++ notify_lost handler ++ finally pass client.

(** The pass ends in [break] (line 153): the connect succeeded and the flag
    was found cleared. *)
Definition leaves_loop (pass : iteration) : bool :=
  match outcome pass, kept pass with
  | Opened _, FlagCleared _ => true
  | _, _ => false
  end.

(** [run_meshtastic]: the passes the thread makes while it reads the flag
    set at the head of the loop; the list ends where the flag is read
    cleared there. After a pass that does not [break], the thread sleeps
    for the reconnect delay if it reads the flag set (lines 175-176). *)
Fixpoint run_meshtastic (config : Config) (handler : MessageHandler)
    (passes : list iteration) : list event :=
  match passes with
  | [] => []
  | pass :: rest =>
      pass_events config handler pass ++
      if leaves_loop pass then []
      else
        (if running_after pass then [EvSleep (reconnect_delay config)]
         else []) ++
        run_meshtastic config handler rest
  end.

(** A pass that ends in failure: the connect fails, the connection is
    lost, or an exception is raised. *)
Definition ends_in_failure (pass : iteration) : bool :=
  negb (leaves_loop pass).

(** A pass after which the error notice is sent: the connect failed or the
    connection was lost. *)
Definition notified (pass : iteration) : bool :=
  match outcome pass, kept pass with
  | Opened _, LinkLost _ => true
  | Opened _, _ => false
  | _, _ => true
  end.

(** A pass in which [connect] made an interface and the client is
    disconnected from outside the loop before the [finally] runs. *)
Definition lost_outside (pass : iteration) : bool :=
  match outcome pass, kept pass with
  | OpenRaises, _ => false
  | Opened _, LinkLost _ => true
  | _, _ => disconnected_outside pass
  end.

(** A pass whose [finally] calls [close()]: [connect] made an interface,
    and the client was not disconnected from outside the loop before. *)
Definition closes_interface (pass : iteration) : bool :=
  match outcome pass with
  | OpenRaises => false
  | NodeInfoRaises _ | Opened _ => negb (lost_outside pass)
  end.

Fixpoint count_close (trace : list event) : nat :=
  match trace with
  | [] => 0
  | EvClose :: rest => S (count_close rest)
  | _ :: rest => count_close rest
  end.

(** The seconds of the sleeps in a trace. *)
Fixpoint sleeps (trace : list event) : list Z :=
  match trace with
  | [] => []
  | EvSleep d :: rest => d :: sleeps rest
  | _ :: rest => sleeps rest
  end.

(** Lines 69-73 of [start]: wait until the Discord client is ready, one
    second at a time and [remaining] seconds at most. [is_ready n] is what
    the [n]-th call of [is_ready()] returns; the result is the number of
    calls made and the sleeps. *)
Fixpoint wait_ready (remaining : nat) (is_ready : nat -> bool) (calls : nat)
  : nat * list event :=
  if is_ready calls then (S calls, [])
  else
    match remaining with
    | O => (S calls, [])
    | S remaining' =>
        let '(calls', evs) := wait_ready remaining' is_ready (S calls) in
        (calls', EvSleep 1 :: evs)
    end.

(** Lines 66-81 of [start]: the wait, and the check that lets the
    Meshtastic thread start or raises. *)
Definition start_gate (is_ready : nat -> bool) : res unit * list event :=
  let '(calls, evs) := wait_ready 30 is_ready 0 in
  if is_ready calls then (Ok tt, evs) else (Raise RuntimeError, evs).

(** The number of interfaces a trace creates. *)
Fixpoint count_opened (trace : list event) : nat :=
  match trace with
  | [] => 0
  | EvOpen _ true :: rest => S (count_opened rest)
  | _ :: rest => count_opened rest
  end.

End Bridge.
Import Bridge.

(** ** Concrete packets and caches *)

Module Examples.

(** A text message from ["!a1b2"] (node number 5) with no receive time. *)
Definition text_packet : gmap string pyval :=
  {[ "fromId" := PStr "!a1b2"; "from" := PInt 5; "toId" := PStr "^all";
     "decoded" := PDict {[ "portnum" := PStr "TEXT_MESSAGE_APP";
                           "text" := PStr "hello" ]} ]}.

(** The same message with the receive time the device stamped. *)
Definition text_packet_rx : gmap string pyval :=
  <["rxTime" := PInt 1700000000]> text_packet.

(** A text-message packet whose payload has no ['text']. *)
Definition text_packet_no_text : gmap string pyval :=
  {[ "fromId" := PStr "!a1b2"; "from" := PInt 5;
     "decoded" := PDict {[ "portnum" := PStr "TEXT_MESSAGE_APP" ]} ]}.

Definition nodeinfo_packet : gmap string pyval :=
  {[ "fromId" := PStr "!a1b2"; "from" := PInt 5;
     "decoded" := PDict {[ "portnum" := PStr "NODEINFO_APP" ]} ]}.

Definition position_packet : gmap string pyval :=
  {[ "fromId" := PStr "!a1b2"; "from" := PInt 5;
     "decoded" := PDict {[ "portnum" := PStr "POSITION_APP" ]} ]}.

Definition routing_packet : gmap string pyval :=
  {[ "fromId" := PStr "!a1b2"; "from" := PInt 5;
     "decoded" := PDict {[ "portnum" := PStr "ROUTING_APP" ]} ]}.

(** An encrypted packet the device could not decode. *)
Definition undecoded_packet : gmap string pyval :=
  {[ "fromId" := PStr "!a1b2"; "from" := PInt 5;
     "encrypted" := PStr "q83vEg==" ]}.

(** Telemetry with two of the five device metrics. *)
Definition telemetry_packet : gmap string pyval :=
  {[ "fromId" := PStr "!a1b2"; "from" := PInt 5; "rxTime" := PInt 1700000000;
     "decoded" := PDict {[ "portnum" := PStr "TELEMETRY_APP";
       "telemetry" := PDict {[ "deviceMetrics" :=
          PDict {[ "batteryLevel" := PInt 87;
                   "voltage" := PFloat (41 # 10) ]} ]} ]} ]}.

(** Telemetry whose device-metrics sub-object is there but empty. *)
Definition telemetry_packet_empty : gmap string pyval :=
  {[ "fromId" := PStr "!a1b2"; "from" := PInt 5;
     "decoded" := PDict {[ "portnum" := PStr "TELEMETRY_APP";
       "telemetry" := PDict {[ "deviceMetrics" := PDict ∅ ]} ]} ]}.

(** Telemetry whose device-metrics sub-object has an entry, but none of the
    five metrics the classifier copies. *)
Definition telemetry_packet_other : gmap string pyval :=
  {[ "fromId" := PStr "!a1b2"; "from" := PInt 5;
     "decoded" := PDict {[ "portnum" := PStr "TELEMETRY_APP";
       "telemetry" := PDict {[ "deviceMetrics" :=
          PDict {[ "temperature" := PFloat (43 # 2) ]} ]} ]} ]}.

Definition user_entry (longName shortName : string) : pyval :=
  PDict {[ "user" := PDict {[ "longName" := PStr longName;
                              "shortName" := PStr shortName ]} ]}.

(** A node cache keyed by display id, as the device library fills it. *)
Definition cache_by_id : SerialInterface :=
  {| nodes := [(inl "!a1b2", user_entry "Alice" "AL")];
     sendText_ok := fun _ => true |}.

(** A cache that has the sender under its display id and, with another
    name, under its node number. *)
Definition cache_both : SerialInterface :=
  {| nodes := [(inl "!a1b2", user_entry "Alice" "AL");
               (inr 5, user_entry "Bob" "BO")];
     sendText_ok := fun _ => true |}.

(** The message the classifier returns for [text_packet] when the sender
    resolves to [from_name] and the clock reads [now]. *)
Definition text_message (from_name : pyval) (now : Z) : gmap string pyval :=
  direct_message_dict from_name (PInt 5) (PStr "^all") (PStr "hello")
    (PInt now) text_packet.

Definition open_loop : AbstractEventLoop := {| is_closed := false |}.

(** The Discord client before and after [_setup_callbacks]. *)
Definition discord_unregistered : DiscordClient :=
  {| channel_id := 42;
     send_mesh_message_callback := None;
     list_nodes_callback := None |}.

Definition discord_registered : DiscordClient :=
  _setup_callbacks discord_unregistered.

(** A client connected to a device that accepts every text. *)
Definition connected_client : MeshtasticClient :=
  {| device_path := "/dev/ttyACM0"; interface := Some cache_by_id;
     connected := true |}.

(** A message of 241 characters. *)
Definition long_message : string :=
  string_of_list_ascii (repeat "x"%char 241).

Definition config : Config :=
  _validate {| meshtastic_device := "/dev/ttyACM0"; reconnect_delay := 5 |}.

(** A pass in which the device cannot be opened and the flag stays set. *)
Definition failing_pass : iteration :=
  {| outcome := OpenRaises; discord_ready := true; kept := LinkLost 0;
     disconnected_outside := false; close_returns := true;
     running_after := true |}.

(** A handler whose event loop has been set, as [start] does before the
    thread runs. *)
Definition handler_ready : MessageHandler :=
  set_event_loop new_handler open_loop.

(** A pass in which the device is opened and, after two polls, the flag
    is found cleared by a shutdown that has disconnected the client. *)
Definition final_pass : iteration :=
  {| outcome := Opened cache_by_id; discord_ready := true;
     kept := FlagCleared 2; disconnected_outside := true;
     close_returns := true; running_after := false |}.

(** Node records: one with no signal quality, one with an SNR of -1000,
    two with the same SNR. *)
Definition node_unknown : pyval :=
  PDict {[ "num" := PInt 1 ]}.

Definition node_weak : pyval :=
  PDict {[ "num" := PInt 2; "snr" := PFloat (-1000 # 1) ]}.

Definition node_a : pyval :=
  PDict {[ "num" := PInt 3; "snr" := PFloat (23 # 4) ]}.

Definition node_b : pyval :=
  PDict {[ "num" := PInt 4; "snr" := PFloat (23 # 4) ]}.

Definition node_strong : pyval :=
  PDict {[ "num" := PInt 5; "snr" := PFloat (10 # 1) ]}.

(** A packet whose decoded payload is no mapping. *)
Definition malformed_packet : gmap string pyval :=
  {[ "fromId" := PStr "!a1b2"; "from" := PInt 5;
     "decoded" := PStr "TEXT_MESSAGE_APP" ]}.

(** A node record whose ['user'] is [None], and a client connected to a
    device that has this node in its cache. *)
Definition node_without_user : pyval :=
  PDict {[ "num" := PInt 6; "user" := PNone ]}.

Definition client_without_user : MeshtasticClient :=
  {| device_path := "/dev/ttyACM0";
     interface := Some {| nodes := [(inr 6, node_without_user)];
                          sendText_ok := fun _ => true |};
     connected := true |}.

(** A pass in which the device is opened, the flag is found cleared at the
    first test, and the [finally] runs before the shutdown disconnects the
    client; and one in which the [close()] of the [finally] raises. *)
Definition early_break_pass : iteration :=
  {| outcome := Opened cache_by_id; discord_ready := false;
     kept := FlagCleared 0; disconnected_outside := false;
     close_returns := true; running_after := false |}.

Definition close_raises_pass : iteration :=
  {| outcome := NodeInfoRaises cache_by_id; discord_ready := false;
     kept := LinkLost 0; disconnected_outside := false;
     close_returns := false; running_after := true |}.

(** A text message whose text is longer than what the send command
    accepts. *)
Definition long_text_packet : gmap string pyval :=
  {[ "fromId" := PStr "!a1b2"; "from" := PInt 5;
     "decoded" := PDict {[ "portnum" := PStr "TEXT_MESSAGE_APP";
                           "text" := PStr long_message ]} ]}.

(** A cache with a second node, and one whose entry for the sender has
    empty names. *)
Definition cache_two_nodes : SerialInterface :=
  {| nodes := [(inl "!a1b2", user_entry "Alice" "AL");
               (inl "!ffff", user_entry "Carol" "CA")];
     sendText_ok := fun _ => false |}.

Definition cache_empty_names : SerialInterface :=
  {| nodes := [(inl "!a1b2", user_entry EmptyString EmptyString)];
     sendText_ok := fun _ => true |}.

Definition closed_loop : AbstractEventLoop := {| is_closed := true |}.

End Examples.

(** * Properties *)

(** ** The packet classifier *)

Section Classifier.

Implicit Types (interface : option SerialInterface) (now : Z).
Implicit Types (packet decoded : gmap string pyval).

Lemma py_eq_str_true v s : py_eq_str v s = true ↔ v = PStr s.
Proof.
  destruct v; simpl; try (split; [discriminate | congruence]).
  rewrite String.eqb_eq. split; congruence.
Qed.

Lemma py_eq_str_false v s : py_eq_str v s = false ↔ v ≠ PStr s.
Proof.
  rewrite <- py_eq_str_true. destruct (py_eq_str v s); split; congruence.
Qed.

Lemma truthy_dict (d : gmap string pyval) : truthy (PDict d) = true ↔ d ≠ ∅.
Proof.
  simpl. rewrite negb_true_iff, bool_decide_eq_false.
  by rewrite map_size_empty_iff.
Qed.

(** What the classifier does with a packet whose decoded payload is a
    mapping of the text-message kind. *)
Lemma process_text_message interface now packet decoded :
  packet !! "decoded" = Some (PDict decoded) →
  dict_get decoded "portnum" PNone = PStr "TEXT_MESSAGE_APP" →
  _process_packet interface now packet =
    Some (direct_message_dict
            (resolve_from_name interface
               (dict_get packet "fromId" (PStr "Unknown"))
               (dict_get packet "from" (PInt 0)))
            (dict_get packet "from" (PInt 0))
            (dict_get packet "toId" (PStr "Unknown"))
            (dict_get decoded "text" (PStr EmptyString))
            (dict_get packet "rxTime" (PInt now))
            packet).
Proof.
  intros Hdec Hport. unfold _process_packet, _process_packet_body, _process_packet_body. rewrite Hdec. simpl.
  rewrite Hport. reflexivity.
Qed.

(** What the classifier does with a packet of the telemetry kind. *)
Lemma process_telemetry interface now packet decoded :
  packet !! "decoded" = Some (PDict decoded) →
  dict_get decoded "portnum" PNone = PStr "TELEMETRY_APP" →
  _process_packet interface now packet =
    match device_metrics_of packet with
    | Some device_metrics =>
        if bool_decide (size device_metrics = 0%nat) then None
        else
          Some (telemetry_dict
                  (resolve_from_name interface
                     (dict_get packet "fromId" (PStr "Unknown"))
                     (dict_get packet "from" (PInt 0)))
                  (dict_get packet "from" (PInt 0))
                  (dict_get device_metrics "batteryLevel" PNone)
                  (dict_get device_metrics "voltage" PNone)
                  (dict_get device_metrics "channelUtilization" PNone)
                  (dict_get device_metrics "airUtilTx" PNone)
                  (dict_get device_metrics "uptimeSeconds" PNone)
                  (dict_get packet "rxTime" (PInt now))
                  packet)
    | None => None
    end.
Proof.
  intros Hdec Hport. unfold _process_packet, _process_packet_body, device_metrics_of.
  rewrite Hdec. simpl. rewrite Hport. simpl.
  destruct (dict_get decoded "telemetry" (PDict ∅)) as [| | | | |tel];
    try reflexivity.
  simpl.
  change (dict_get tel "deviceMetrics" PNone)
    with (default PNone (tel !! "deviceMetrics")).
  destruct (tel !! "deviceMetrics") as [[| | | | |dm]|]; simpl;
    try reflexivity.
  - by destruct b.
  - by destruct (negb _).
  - by destruct (negb _).
  - by destruct (negb _).
  - by destruct (bool_decide _).
Qed.

Lemma portnum_of_decoded packet v :
  portnum_of packet = Some v →
  ∃ decoded, packet !! "decoded" = Some (PDict decoded) ∧
             dict_get decoded "portnum" PNone = v.
Proof.
  unfold portnum_of.
  destruct (packet !! "decoded") as [[| | | | |decoded]|]; try discriminate.
  intros [= <-]. by exists decoded.
Qed.

Lemma lookup_direct_message_type a b c d e packet :
  direct_message_dict a b c d e packet !! "type" = Some (PStr "direct_message").
Proof. unfold direct_message_dict. by simplify_map_eq. Qed.

Lemma lookup_direct_message_text a b c d e packet :
  direct_message_dict a b c d e packet !! "text" = Some d.
Proof. unfold direct_message_dict. by simplify_map_eq. Qed.

Lemma lookup_direct_message_from_id a b c d e packet :
  direct_message_dict a b c d e packet !! "from_id" = Some a.
Proof. unfold direct_message_dict. by simplify_map_eq. Qed.

Lemma lookup_direct_message_timestamp a b c d e packet :
  direct_message_dict a b c d e packet !! "timestamp" = Some e.
Proof. unfold direct_message_dict. by simplify_map_eq. Qed.

Lemma lookup_telemetry_from_id a b c d e f g h packet :
  telemetry_dict a b c d e f g h packet !! "from_id" = Some a.
Proof. unfold telemetry_dict. by simplify_map_eq. Qed.

Lemma lookup_telemetry_timestamp a b c d e f g h packet :
  telemetry_dict a b c d e f g h packet !! "timestamp" = Some h.
Proof. unfold telemetry_dict. by simplify_map_eq. Qed.

(** Every message the classifier returns carries the resolved sender name
    and the packet's receive time, or the clock reading when the packet has
    none. *)
Lemma process_packet_common interface now packet m :
  _process_packet interface now packet = Some m →
  m !! "from_id" =
    Some (resolve_from_name interface
            (dict_get packet "fromId" (PStr "Unknown"))
            (dict_get packet "from" (PInt 0))) ∧
  m !! "timestamp" = Some (dict_get packet "rxTime" (PInt now)).
Proof.
  intros Hm.
  destruct (portnum_of packet) as [v|] eqn:Hkind.
  - destruct (portnum_of_decoded _ _ Hkind) as (decoded & Hdec & Hport).
    destruct (py_eq_str v "TEXT_MESSAGE_APP") eqn:Htext.
    { apply py_eq_str_true in Htext. rewrite Htext in Hport.
      rewrite (process_text_message _ _ _ _ Hdec Hport) in Hm.
      injection Hm as <-.
      by rewrite lookup_direct_message_from_id,
        lookup_direct_message_timestamp. }
    destruct (py_eq_str v "TELEMETRY_APP") eqn:Htel.
    { apply py_eq_str_true in Htel. rewrite Htel in Hport.
      rewrite (process_telemetry _ _ _ _ Hdec Hport) in Hm.
      destruct (device_metrics_of packet); [|discriminate].
      destruct (bool_decide _); [discriminate|].
      injection Hm as <-.
      by rewrite lookup_telemetry_from_id, lookup_telemetry_timestamp. }
    exfalso. revert Hm. unfold _process_packet, _process_packet_body, _process_packet_body. rewrite Hdec. simpl.
    rewrite Hport, Htext, Htel. by repeat case_match.
  - exfalso. revert Hm Hkind. unfold _process_packet, _process_packet_body, portnum_of.
    by destruct (packet !! "decoded") as [[]|].
Qed.

(** C5: a packet whose kind is neither TEXT_MESSAGE_APP nor TELEMETRY_APP
    (no decoded payload, a payload that is no mapping, an unrecognised
    kind, a node-info or a position update) is classified as no message. *)
Theorem other_kinds_yield_no_message interface now packet :
  portnum_of packet ≠ Some (PStr "TEXT_MESSAGE_APP") →
  portnum_of packet ≠ Some (PStr "TELEMETRY_APP") →
  _process_packet interface now packet = None.
Proof.
  unfold portnum_of, _process_packet, _process_packet_body.
  destruct (packet !! "decoded") as [[| | | | |decoded]|];
    try reflexivity.
  intros Htext Htel. simpl.
  destruct (py_eq_str _ "TEXT_MESSAGE_APP") eqn:E1.
  { apply py_eq_str_true in E1. congruence. }
  destruct (py_eq_str _ "TELEMETRY_APP") eqn:E2.
  { apply py_eq_str_true in E2. congruence. }
  by repeat case_match.
Qed.

Lemma other_kinds_yield_no_message_witness :
  _process_packet (Some Examples.cache_by_id) 0 Examples.undecoded_packet = None ∧
  _process_packet (Some Examples.cache_by_id) 0 Examples.routing_packet = None ∧
  _process_packet (Some Examples.cache_by_id) 0 Examples.nodeinfo_packet = None ∧
  _process_packet (Some Examples.cache_by_id) 0 Examples.position_packet = None.
Proof.
  split; [|split; [|split]]; apply other_kinds_yield_no_message;
    vm_compute; discriminate.
Defined.

(** C10: a packet of kind TEXT_MESSAGE_APP whose decoded payload has no
    text field is still classified as a direct message, and the text of
    that message is the empty string. *)
Theorem text_kind_without_text_field interface now packet decoded :
  packet !! "decoded" = Some (PDict decoded) →
  decoded !! "portnum" = Some (PStr "TEXT_MESSAGE_APP") →
  decoded !! "text" = None →
  ∃ m, _process_packet interface now packet = Some m ∧
       m !! "type" = Some (PStr "direct_message") ∧
       m !! "text" = Some (PStr EmptyString).
Proof.
  intros Hdec Hport Htext. eexists. split.
  - apply (process_text_message _ _ _ _ Hdec).
    unfold dict_get. by rewrite Hport.
  - rewrite lookup_direct_message_type, lookup_direct_message_text.
    unfold dict_get. by rewrite Htext.
Qed.

Lemma text_kind_without_text_field_witness :
  ∃ m, _process_packet None 0 Examples.text_packet_no_text = Some m ∧
       m !! "type" = Some (PStr "direct_message") ∧
       m !! "text" = Some (PStr EmptyString).
Proof.
  apply (text_kind_without_text_field None 0 Examples.text_packet_no_text
           {[ "portnum" := PStr "TEXT_MESSAGE_APP" ]}); reflexivity.
Defined.

Lemma lookup_telemetry_fields a b c d e f g h packet :
  let m := telemetry_dict a b c d e f g h packet in
  m !! "type" = Some (PStr "telemetry") ∧
  m !! "battery_level" = Some c ∧
  m !! "voltage" = Some d ∧
  m !! "channel_utilization" = Some e ∧
  m !! "air_util_tx" = Some f ∧
  m !! "uptime_seconds" = Some g.
Proof. unfold telemetry_dict. simpl. by simplify_map_eq. Qed.

Lemma any_metric_present_nonempty packet :
  any_metric_present packet = true →
  ∃ device_metrics,
    device_metrics_of packet = Some device_metrics ∧ device_metrics ≠ ∅.
Proof.
  unfold any_metric_present.
  destruct (device_metrics_of packet) as [dm|]; [|discriminate].
  intros H. exists dm. split; [done|]. intros ->.
  apply existsb_exists in H as (k & _ & Hk).
  apply bool_decide_eq_true in Hk as [v Hv].
  by rewrite lookup_empty in Hv.
Qed.

(** C1, as the code has it: a packet of kind TELEMETRY_APP is classified
    as a telemetry message exactly when its device-metrics sub-object is a
    non-empty mapping. So a packet with at least one of the five metrics
    gives a message, and an absent or empty sub-object gives none; a
    message carries, for each of the five metrics, the packet's value or
    [None] when the packet has none. *)
Theorem telemetry_iff_device_metrics_nonempty interface now packet :
  portnum_of packet = Some (PStr "TELEMETRY_APP") →
  (is_Some (_process_packet interface now packet) ↔
     ∃ device_metrics,
       device_metrics_of packet = Some device_metrics ∧ device_metrics ≠ ∅) ∧
  (any_metric_present packet = true →
     is_Some (_process_packet interface now packet)) ∧
  (∀ m, _process_packet interface now packet = Some m →
     ∃ device_metrics,
       device_metrics_of packet = Some device_metrics ∧
       m !! "type" = Some (PStr "telemetry") ∧
       m !! "battery_level" = Some (dict_get device_metrics "batteryLevel" PNone) ∧
       m !! "voltage" = Some (dict_get device_metrics "voltage" PNone) ∧
       m !! "channel_utilization" =
         Some (dict_get device_metrics "channelUtilization" PNone) ∧
       m !! "air_util_tx" = Some (dict_get device_metrics "airUtilTx" PNone) ∧
       m !! "uptime_seconds" =
         Some (dict_get device_metrics "uptimeSeconds" PNone)).
Proof.
  intros Hkind.
  destruct (portnum_of_decoded _ _ Hkind) as (decoded & Hdec & Hport).
  rewrite (process_telemetry interface now _ _ Hdec Hport).
  assert (Hiff :
    is_Some (match device_metrics_of packet with
             | Some dm =>
                 if bool_decide (size dm = 0%nat) then None
                 else Some (telemetry_dict
                   (resolve_from_name interface
                      (dict_get packet "fromId" (PStr "Unknown"))
                      (dict_get packet "from" (PInt 0)))
                   (dict_get packet "from" (PInt 0))
                   (dict_get dm "batteryLevel" PNone)
                   (dict_get dm "voltage" PNone)
                   (dict_get dm "channelUtilization" PNone)
                   (dict_get dm "airUtilTx" PNone)
                   (dict_get dm "uptimeSeconds" PNone)
                   (dict_get packet "rxTime" (PInt now)) packet)
             | None => None
             end) ↔
    ∃ dm, device_metrics_of packet = Some dm ∧ dm ≠ ∅).
  { destruct (device_metrics_of packet) as [dm|].
    - case_bool_decide as Hsize.
      + apply map_size_empty_iff in Hsize. split.
        * by intros [? ?].
        * intros (dm' & [= <-] & Hne). done.
      + split; [|by eauto]. intros _. exists dm. split; [done|].
        by rewrite <- map_size_empty_iff.
    - split; [by intros [? ?] | by intros (? & ? & ?)]. }
  split; [exact Hiff|]. split.
  - intros Hany. apply Hiff. by apply any_metric_present_nonempty.
  - intros m Hm. destruct (device_metrics_of packet) as [dm|]; [|done].
    destruct (bool_decide _); [done|]. injection Hm as <-.
    exists dm. split; [done|]. apply lookup_telemetry_fields.
Qed.

Lemma telemetry_iff_device_metrics_nonempty_witness :
  is_Some (_process_packet None 0 Examples.telemetry_packet) ∧
  msg_field "battery_level" (_process_packet None 0 Examples.telemetry_packet)
    = Some (PInt 87) ∧
  msg_field "uptime_seconds" (_process_packet None 0 Examples.telemetry_packet)
    = Some PNone.
Proof.
  split; [|split; reflexivity].
  apply (telemetry_iff_device_metrics_nonempty None 0
           Examples.telemetry_packet); reflexivity.
Defined.

(** C1 as the specification states it fails: a device-metrics sub-object
    with an entry that is none of the five metrics still gives a telemetry
    message, whose five metric fields are all [None]. *)
Lemma telemetry_without_the_five_metrics :
  portnum_of Examples.telemetry_packet_other = Some (PStr "TELEMETRY_APP") ∧
  any_metric_present Examples.telemetry_packet_other = false ∧
  msg_field "type" (_process_packet None 0 Examples.telemetry_packet_other)
    = Some (PStr "telemetry") ∧
  msg_field "battery_level"
    (_process_packet None 0 Examples.telemetry_packet_other) = Some PNone ∧
  ¬ (is_Some (_process_packet None 0 Examples.telemetry_packet_other) ↔
     any_metric_present Examples.telemetry_packet_other = true).
Proof.
  repeat split; try reflexivity.
  intros [H _].
  assert (Hsome : is_Some (_process_packet None 0 Examples.telemetry_packet_other))
    by (eexists; reflexivity).
  specialize (H Hsome). vm_compute in H. discriminate.
Qed.

(** C4, as the code has it: the classifier's result is a function of the
    packet, the interface's node cache and the clock reading [now]; for a
    packet that carries a receive time the clock reading is not used, so
    two runs on the same packet with the same cache give the same result,
    timestamp included, whenever they happen. *)
Theorem classification_deterministic_given_rx_time
    interface now1 now2 packet :
  is_Some (packet !! "rxTime") →
  _process_packet interface now1 packet = _process_packet interface now2 packet.
Proof.
  intros [t Ht]. unfold _process_packet, _process_packet_body, dict_get. by rewrite Ht.
Qed.

Lemma classification_deterministic_given_rx_time_witness :
  _process_packet (Some Examples.cache_by_id) 100 Examples.text_packet_rx =
  _process_packet (Some Examples.cache_by_id) 200 Examples.text_packet_rx.
Proof.
  apply classification_deterministic_given_rx_time.
  exists (PInt 1700000000). reflexivity.
Defined.

(** C4 as the specification states it fails: the same packet and the same
    node cache, classified at two different times, give two different
    timestamps when the packet has no receive time. *)
Lemma classification_depends_on_clock :
  msg_field "timestamp"
    (_process_packet (Some Examples.cache_by_id) 100 Examples.text_packet)
    = Some (PInt 100) ∧
  msg_field "timestamp"
    (_process_packet (Some Examples.cache_by_id) 200 Examples.text_packet)
    = Some (PInt 200) ∧
  _process_packet (Some Examples.cache_by_id) 100 Examples.text_packet ≠
  _process_packet (Some Examples.cache_by_id) 200 Examples.text_packet.
Proof.
  split; [reflexivity|]. split; [reflexivity|].
  intros H. apply (f_equal (msg_field "timestamp")) in H.
  vm_compute in H. discriminate.
Qed.

(** The name a cache entry gives, case by case. *)
Lemma name_of_node_cases node from_id :
  try_except (name_of_node node from_id) (λ _, from_id) =
    match node with
    | PDict entry =>
        match entry !! "user" with
        | Some (PDict user) =>
            py_or (dict_get user "longName" PNone)
                  (py_or (dict_get user "shortName" PNone) from_id)
        | _ => from_id
        end
    | _ => from_id
    end.
Proof.
  unfold name_of_node.
  destruct node as [| b | z | q | s | entry]; simpl; try reflexivity.
  - by destruct b.
  - by destruct (negb _).
  - by destruct (negb _).
  - destruct (negb _); [|done]. simpl. by destruct (str_contains _ _).
  - destruct (bool_decide (size entry = 0%nat)) eqn:Hsize; simpl.
    + apply bool_decide_eq_true, map_size_empty_iff in Hsize. subst entry.
      by rewrite lookup_empty.
    + destruct (entry !! "user") as [u|] eqn:Hu.
      * rewrite bool_decide_eq_true_2 by eauto. simpl. by destruct u.
      * rewrite bool_decide_eq_false_2; [done|]. by intros [? ?].
Qed.

Lemma cached_node_str_int iface s z :
  cached_node iface (PStr s) (PInt z) =
    Ok (py_or (default PNone (assoc (inl s) (nodes iface)))
              (default PNone (assoc (inr z) (nodes iface)))).
Proof.
  unfold cached_node, py_or. simpl. by case_match.
Qed.

(** C9, as the code has it: every message carries as sender name the
    result of this resolution. Without an interface, or when the numeric
    id is false (absent or zero), the name is the raw sender id. Otherwise
    the cache is looked up by the display id first and by the numeric id
    only when that gave nothing; from an entry with a user mapping the
    name is the long name if true (present and non-empty), else the short
    name if true, else the raw sender id; when no entry is found, the entry
    has no user mapping, or the lookup raises, the name is the raw sender
    id and classification goes on. *)
Theorem display_name_resolution interface now packet m :
  _process_packet interface now packet = Some m →
  let from_id := dict_get packet "fromId" (PStr "Unknown") in
  let from_num := dict_get packet "from" (PInt 0) in
  (∃ from_name,
     m !! "from_id" = Some from_name ∧
     match interface with
     | Some iface =>
         if truthy from_num then
           match cached_node iface from_id from_num with
           | Ok (PDict entry) =>
               match entry !! "user" with
               | Some (PDict user) =>
                   from_name =
                     py_or (dict_get user "longName" PNone)
                           (py_or (dict_get user "shortName" PNone) from_id)
               | _ => from_name = from_id
               end
           | _ => from_name = from_id
           end
         else from_name = from_id
     | None => from_name = from_id
     end) ∧
  (∀ iface s z, from_id = PStr s → from_num = PInt z →
     cached_node iface from_id from_num =
       Ok (py_or (default PNone (assoc (inl s) (nodes iface)))
                 (default PNone (assoc (inr z) (nodes iface))))).
Proof.
  intros Hm from_id from_num. split.
  - destruct (process_packet_common _ _ _ _ Hm) as [Hname _].
    eexists. split; [exact Hname|].
    fold from_id from_num. unfold resolve_from_name.
    destruct interface as [iface|]; [|done].
    destruct (truthy from_num); [|done].
    destruct (cached_node iface from_id from_num) as [node|e]; [|done].
    simpl. rewrite name_of_node_cases.
    destruct node as [| | | | |entry]; try done.
    destruct (entry !! "user") as [[]|]; done.
  - intros iface s z -> ->. apply cached_node_str_int.
Qed.

(** A text message from a sender that is not in the cache carries the raw
    sender id as name and the text as it came. *)
Example text_message_from_unknown_sender :
  let message :=
    _process_packet (Some {| nodes := []; sendText_ok := λ _, true |}) 0
      Examples.text_packet in
  msg_field "type" message = Some (PStr "direct_message") ∧
  msg_field "from_id" message = Some (PStr "!a1b2") ∧
  msg_field "text" message = Some (PStr "hello").
Proof. repeat split. Qed.

Lemma display_name_resolution_witness :
  ∃ from_name,
    Examples.text_message (PStr "Alice") 0 !! "from_id" = Some from_name ∧
    from_name = PStr "Alice".
Proof.
  destruct (display_name_resolution (Some Examples.cache_by_id) 0
              Examples.text_packet (Examples.text_message (PStr "Alice") 0)
              eq_refl) as [(from_name & Hfield & Hcase) _].
  exists from_name. split; [exact Hfield|].
  vm_compute in Hcase. exact Hcase.
Defined.

(** C9 as the specification states it fails: with a cache that has the
    sender under its display id as Alice and under its numeric id as Bob,
    the lookup by numeric id gives Bob, and the message says Alice. *)
Lemma display_name_not_by_numeric_id :
  dict_get Examples.text_packet "fromId" (PStr "Unknown") = PStr "!a1b2" ∧
  dict_get Examples.text_packet "from" (PInt 0) = PInt 5 ∧
  display_name_by_numeric_id Examples.cache_both (PStr "!a1b2") 5
    = PStr "Bob" ∧
  msg_field "from_id"
    (_process_packet (Some Examples.cache_both) 0 Examples.text_packet)
    = Some (PStr "Alice") ∧
  msg_field "from_id"
    (_process_packet (Some Examples.cache_both) 0 Examples.text_packet)
    ≠ Some (display_name_by_numeric_id Examples.cache_both (PStr "!a1b2") 5).
Proof.
  repeat split; try reflexivity.
  intros H. vm_compute in H. discriminate.
Qed.

End Classifier.

(** ** The bridge into the event loop *)

Section Scheduling.

(** C8: a schedule call made before the event loop has been set logs the
    violation and returns without raising; it leaves the handler as it was
    and schedules nothing. Once the loop is set, a schedule call does what
    it would have done had the early call never been made: on a loop that
    is not closed it hands the coroutine to the loop. *)
Theorem schedule_before_loop_is_set
    (self : MessageHandler) (early coro : coroutine) (l : AbstractEventLoop) :
  loop self = None →
  _schedule_discord_task self early =
    (Ok tt, self,
     [EvLog ERROR "Event loop not set, cannot schedule Discord task"]) ∧
  (let self' := (_schedule_discord_task self early).1.2 in
   _schedule_discord_task (set_event_loop self' l) coro =
     _schedule_discord_task (set_event_loop new_handler l) coro ∧
   (is_closed l = false →
    _schedule_discord_task (set_event_loop self' l) coro =
      (Ok tt, set_event_loop self' l, [EvRunCoroutine coro]))).
Proof.
  intros Hnone. unfold _schedule_discord_task at 1 2 4. rewrite Hnone.
  split; [reflexivity|]. simpl. split.
  - reflexivity.
  - intros Hopen. unfold _schedule_discord_task, run_coroutine_threadsafe.
    simpl. by rewrite Hopen.
Qed.

Lemma schedule_before_loop_is_set_witness :
  _schedule_discord_task new_handler (send_error_notification "early") =
    (Ok tt, new_handler,
     [EvLog ERROR "Event loop not set, cannot schedule Discord task"]) ∧
  _schedule_discord_task (set_event_loop new_handler Examples.open_loop)
    (send_error_notification "late") =
    (Ok tt, set_event_loop new_handler Examples.open_loop,
     [EvRunCoroutine (send_error_notification "late")]).
Proof.
  destruct (schedule_before_loop_is_set new_handler
              (send_error_notification "early")
              (send_error_notification "late") Examples.open_loop eq_refl)
    as [Hearly [_ Hlate]].
  split; [exact Hearly|]. exact (Hlate eq_refl).
Defined.

End Scheduling.

(** ** The command router *)

Section CommandRouter.

Lemma send_text_connected client iface text :
  is_connected client = true →
  interface client = Some iface →
  send_text client text None =
    if sendText_ok iface text
    then (true, [EvSendText text None])
    else (false, [EvSendText text None;
                  EvLog ERROR "Error sending text message"]).
Proof.
  intros Hconn Hiface. unfold send_text. by rewrite Hconn, Hiface.
Qed.

(** C2, as the code has it: for a send command issued in the configured
    channel once the send callback has been registered, a message of more
    than 240 characters gets the too-long reply and nothing else happens,
    so the interface's [sendText] is not called; a message of at most 240
    characters, with the bridge's callback registered and the client
    connected, is passed to the interface's [sendText] once, and the reply
    is success when that call returns and failure when it raises. Before
    the callbacks are registered every message, long or short, is answered
    with "connection not available" and nothing else happens; in any other
    channel the command does nothing. *)
Theorem send_command_length_limit
    (self : DiscordClient) (mesh : option MeshtasticClient)
    (message : string) :
  (∀ registered : string -> callback bool,
     send_mesh_message_callback self = Some registered →
     ((240 < String.length message)%nat →
        send self mesh (channel_id self) message =
          [EvReply (ReplyTooLong (String.length message))] ∧
        existsb is_send_text (send self mesh (channel_id self) message)
          = false) ∧
     ((String.length message ≤ 240)%nat →
        ∀ client iface,
          registered = _send_mesh_message →
          mesh = Some client →
          is_connected client = true →
          interface client = Some iface →
          filter (λ e, is_send_text e = true)
            (send self mesh (channel_id self) message) =
            [EvSendText message None] ∧
          last (send self mesh (channel_id self) message) =
            Some (EvReply (if sendText_ok iface message
                           then ReplySent message else ReplySendFailed)))) ∧
  (send_mesh_message_callback self = None →
   send self mesh (channel_id self) message = [EvReply ReplyNotAvailable]) ∧
  (∀ ctx_channel_id,
     ctx_channel_id ≠ channel_id self →
     send self mesh ctx_channel_id message = []).
Proof.
  unfold send. split; [|split].
  - intros registered Hreg. rewrite Z.eqb_refl, Hreg. simpl. split.
    + intros Hlong. apply Nat.ltb_lt in Hlong. by rewrite Hlong.
    + intros Hshort client iface -> -> Hconn Hiface.
      assert ((240 <? String.length message)%nat = false) as ->
        by (apply Nat.ltb_ge; exact Hshort).
      unfold _send_mesh_message. rewrite Hconn.
      rewrite (send_text_connected _ _ _ Hconn Hiface).
      by destruct (sendText_ok iface message).
  - intros Hnone. by rewrite Z.eqb_refl, Hnone.
  - intros ctx_channel_id Hother%Z.eqb_neq. by rewrite Hother.
Qed.

Lemma send_command_length_limit_witness :
  send Examples.discord_registered (Some Examples.connected_client) 42
    Examples.long_message = [EvReply (ReplyTooLong 241)] ∧
  last (send Examples.discord_registered (Some Examples.connected_client) 42
          "hello") = Some (EvReply (ReplySent "hello")) ∧
  send Examples.discord_unregistered (Some Examples.connected_client) 42
    "hello" = [EvReply ReplyNotAvailable] ∧
  send Examples.discord_registered (Some Examples.connected_client) 7
    "hello" = [].
Proof.
  destruct (send_command_length_limit Examples.discord_registered
              (Some Examples.connected_client) Examples.long_message)
    as (Hlong & _ & _).
  destruct (send_command_length_limit Examples.discord_registered
              (Some Examples.connected_client) "hello")
    as (Hshort & _ & Hother).
  destruct (send_command_length_limit Examples.discord_unregistered
              (Some Examples.connected_client) "hello")
    as (_ & Hbefore & _).
  destruct (Hlong _send_mesh_message eq_refl) as [Hlong' _].
  destruct (Hshort _send_mesh_message eq_refl) as [_ Hshort'].
  split; [|split; [|split]].
  - apply Hlong'. vm_compute. lia.
  - apply (Hshort' ltac:(vm_compute; lia) Examples.connected_client
             Examples.cache_by_id eq_refl eq_refl eq_refl eq_refl).
  - exact (Hbefore eq_refl).
  - apply (Hother 7). discriminate.
Defined.

(** C2 as the specification states it fails: before the callbacks are
    registered, a message of 241 characters sent in the configured channel
    is answered with "connection not available", not with "too long". *)
Lemma long_message_before_callbacks :
  String.length Examples.long_message = 241%nat ∧
  send Examples.discord_unregistered (Some (new_client "/dev/ttyACM0")) 42
    Examples.long_message = [EvReply ReplyNotAvailable] ∧
  send Examples.discord_unregistered (Some (new_client "/dev/ttyACM0")) 42
    Examples.long_message ≠ [EvReply (ReplyTooLong 241)].
Proof.
  split; [reflexivity|]. split; [reflexivity|]. discriminate.
Qed.

End CommandRouter.

(** ** The node list *)

Section NodeList.

Implicit Types (kx ky : pyval * pyval) (l : list (pyval * pyval)).

Lemma py_lt_numbers a b x y :
  as_number a = Some x → as_number b = Some y →
  py_lt a b = Ok (negb (Qle_bool y x)).
Proof.
  intros Ha Hb. unfold py_lt. rewrite Ha, Hb.
  destruct a; try reflexivity. destruct b; try reflexivity. discriminate.
Qed.

Lemma not_Qle_bool_lt x y : negb (Qle_bool y x) = true ↔ (x < y)%Q.
Proof.
  rewrite negb_true_iff. split.
  - intros H. apply Qnot_le_lt. intros Hle.
    apply Qle_bool_iff in Hle. congruence.
  - intros H. destruct (Qle_bool y x) eqn:E; [|done].
    apply Qle_bool_iff in E. exfalso. by apply (Qlt_not_le x y).
Qed.

(** Where [insert_desc] puts a pair: behind the pairs of the sorted rest
    whose value is greater, in front of the first one whose value is
    not. *)
Lemma insert_desc_split kx l :
  keyed kx → Forall keyed l →
  ∃ l1 l2,
    l = l1 ++ l2 ∧
    insert_desc kx l = Ok (l1 ++ kx :: l2) ∧
    Forall (λ ky, (item_value kx < item_value ky)%Q) l1 ∧
    match l2 with
    | [] => True
    | ky :: _ => (item_value ky <= item_value kx)%Q
    end.
Proof.
  intros Hkx. induction l as [|ky l IH]; intros Hl.
  - exists [], []. by repeat split.
  - apply Forall_cons in Hl as [Hky Hl]. simpl.
    rewrite (py_lt_numbers _ _ _ _ Hkx Hky). simpl.
    destruct (negb (Qle_bool (item_value ky) (item_value kx))) eqn:Hlt.
    + apply not_Qle_bool_lt in Hlt.
      destruct (IH Hl) as (l1 & l2 & -> & Hins & Hgt & Hle).
      exists (ky :: l1), l2. rewrite Hins. simpl. repeat split; [|done].
      by constructor.
    + exists [], (ky :: l). repeat split; [by constructor|].
      apply negb_false_iff, Qle_bool_iff in Hlt. done.
Qed.

Lemma insert_desc_sorted kx l1 l2 :
  Forall (λ ky, (item_value kx < item_value ky)%Q) l1 →
  match l2 with
  | [] => True
  | ky :: _ => (item_value ky <= item_value kx)%Q
  end →
  StronglySorted (λ a b, desc a.2 b.2) (l1 ++ l2) →
  StronglySorted (λ a b, desc a.2 b.2) (l1 ++ kx :: l2).
Proof.
  intros Hgt Hle. induction l1 as [|ky l1 IH]; simpl; intros Hsorted.
  - constructor; [done|]. destruct l2 as [|ky l2]; [constructor|].
    apply StronglySorted_inv in Hsorted as [_ Hall].
    constructor; [exact Hle|].
    eapply Forall_impl; [exact Hall|]. intros kz Hkz.
    exact (Qle_trans _ _ _ Hkz Hle).
  - apply Forall_cons in Hgt as [Hky Hgt].
    apply StronglySorted_inv in Hsorted as [Hsorted Hall].
    constructor; [by apply IH|].
    apply Forall_app in Hall as [Hall1 Hall2].
    apply Forall_app. split; [done|]. constructor; [|done].
    unfold desc. by apply Qlt_le_weak.
Qed.

Lemma insert_desc_stable q kx l1 l2 :
  Forall (λ ky, (item_value kx < item_value ky)%Q) l1 →
  List.filter (λ ky, same_value q ky.2) (l1 ++ kx :: l2) =
  List.filter (λ ky, same_value q ky.2) (kx :: l1 ++ l2).
Proof.
  intros Hgt. rewrite List.filter_app. simpl.
  destruct (same_value q kx.2) eqn:Hq; [|by rewrite List.filter_app].
  rewrite List.filter_app.
  assert (List.filter (λ ky, same_value q ky.2) l1 = []) as ->; [|done].
  induction Hgt as [|ky l1 Hky _ IH]; [done|]. simpl. rewrite IH.
  destruct (same_value q ky.2) eqn:Hq'; [|done]. exfalso.
  unfold same_value in Hq, Hq'. apply Qeq_bool_iff in Hq, Hq'.
  unfold item_value in Hky. rewrite Hq, Hq' in Hky.
  by apply (Qlt_irrefl q).
Qed.

(** [sort_desc] on keyed pairs: a stable sort into descending order. *)
Lemma sort_desc_spec l :
  Forall keyed l →
  ∃ sorted,
    sort_desc l = Ok sorted ∧
    Permutation sorted l ∧
    StronglySorted (λ a b, desc a.2 b.2) sorted ∧
    ∀ q, List.filter (λ ky, same_value q ky.2) sorted =
         List.filter (λ ky, same_value q ky.2) l.
Proof.
  induction l as [|kx l IH]; intros Hl.
  - exists []. repeat split; constructor.
  - apply Forall_cons in Hl as [Hkx Hl].
    destruct (IH Hl) as (sorted & Hsort & Hperm & Hdesc & Hstable).
    assert (Forall keyed sorted) as Hkeyed by (by rewrite Hperm).
    destruct (insert_desc_split kx sorted Hkx Hkeyed)
      as (l1 & l2 & -> & Hins & Hgt & Hle).
    exists (l1 ++ kx :: l2). simpl. rewrite Hsort. simpl.
    split; [exact Hins|]. split; [|split].
    + rewrite <- Hperm. symmetry. apply Permutation_middle.
    + by apply insert_desc_sorted.
    + intros q. rewrite (insert_desc_stable q kx l1 l2 Hgt). simpl.
      by rewrite Hstable.
Qed.

(** The key of a node record. *)
Lemma snr_key_record node :
  node_record node →
  ∃ k, snr_key node = Ok k ∧ keyed (k, node).
Proof.
  destruct node as [| | | | |d]; try done. unfold node_record, snr_key, keyed.
  simpl. unfold dict_get, item_value, sort_value, snr_of. simpl.
  destruct (d !! "snr") as [v|]; simpl.
  - intros [q Hq]. exists v. by rewrite Hq.
  - intros _. by exists (PInt (-999)).
Qed.

Lemma decorate_records nodes_list :
  Forall node_record nodes_list →
  ∃ decorated,
    decorate snr_key nodes_list = Ok decorated ∧
    map snd decorated = nodes_list ∧
    Forall keyed decorated.
Proof.
  induction 1 as [|node nodes_list Hnode _ (decorated & Hdec & Hmap & Hkeyed)].
  - by exists [].
  - destruct (snr_key_record node Hnode) as (k & Hk & Hkx).
    exists ((k, node) :: decorated). simpl. rewrite Hk, Hdec. simpl.
    rewrite Hmap. repeat split. by constructor.
Qed.

Lemma filter_map_snd (P : pyval → bool) l :
  List.filter P (map snd l) = map snd (List.filter (λ kx, P kx.2) l).
Proof.
  induction l as [|kx l IH]; [done|]. simpl.
  destruct (P kx.2); simpl; by rewrite IH.
Qed.

Lemma sorted_map_snd l :
  StronglySorted (λ a b, desc a.2 b.2) l → StronglySorted desc (map snd l).
Proof.
  induction 1 as [|kx l _ IH Hall]; simpl; constructor; [done|].
  by apply Forall_map.
Qed.

(** In a list in descending order whose known qualities are all above
    -999, the entries of unknown quality are at the end. *)
Lemma sorted_unknown_last (sorted : list pyval) :
  StronglySorted desc sorted →
  Forall (λ x, ∀ q, snr_of x = Some q → (inject_Z (-999) < q)%Q) sorted →
  ∃ known unknown,
    sorted = known ++ unknown ∧
    Forall (λ x, snr_unknown x = false) known ∧
    Forall (λ x, snr_unknown x = true) unknown.
Proof.
  induction 1 as [|x sorted Hsorted IH Hall]; intros Hknown.
  - by exists [], [].
  - apply Forall_cons in Hknown as [Hx Hknown].
    destruct (snr_unknown x) eqn:Hunk.
    + exists [], (x :: sorted). repeat split; [constructor|].
      constructor; [done|].
      apply Forall_forall. intros y Hy.
      rewrite Forall_forall in Hall, Hknown.
      specialize (Hall y Hy). specialize (Hknown y Hy).
      unfold desc, sort_value, snr_unknown in *.
      destruct (snr_of x); [done|]. destruct (snr_of y) as [q|]; [|done].
      simpl in Hall. specialize (Hknown q eq_refl). exfalso.
      by apply (Qlt_not_le _ _ Hknown).
    + destruct (IH Hknown) as (known & unknown & -> & Hk & Hu).
      exists (x :: known), unknown. repeat split; [|done]. by constructor.
Qed.




End NodeList.

(** ** The connection supervisor *)

Section Supervisor.

Variables (config : Config) (handler : MessageHandler).

Lemma elapsed_app t1 t2 : elapsed (t1 ++ t2) = elapsed t1 + elapsed t2.
Proof.
  induction t1 as [|e t1 IH]; simpl; [lia|]. destruct e; simpl; lia.
Qed.

Lemma connect_attempts_app t1 t2 :
  connect_attempts (t1 ++ t2) = (connect_attempts t1 + connect_attempts t2)%nat.
Proof.
  induction t1 as [|e t1 IH]; simpl; [done|]. destruct e; simpl; lia.
Qed.

Lemma elapsed_polls n : elapsed (replicate n (EvSleep 1)) = Z.of_nat n.
Proof. induction n as [|n IH]; simpl replicate; simpl elapsed; lia. Qed.

Lemma connect_attempts_polls n :
  connect_attempts (replicate n (EvSleep 1)) = 0%nat.
Proof. induction n as [|n IH]; simpl; done. Qed.

Lemma elapsed_notify_lost : elapsed (notify_lost handler) = 0.
Proof.
  unfold notify_lost, send_error_to_discord, _schedule_discord_task,
    run_coroutine_threadsafe.
  destruct (loop handler) as [l|]; [|done]. by destruct (is_closed l).
Qed.

Lemma connect_attempts_notify_lost :
  connect_attempts (notify_lost handler) = 0%nat.
Proof.
  unfold notify_lost, send_error_to_discord, _schedule_discord_task,
    run_coroutine_threadsafe.
  destruct (loop handler) as [l|]; [|done]. by destruct (is_closed l).
Qed.

(** A [disconnect] neither sleeps nor opens the device, whether its
    [close()] returns or raises. *)
Lemma elapsed_finally pass client : elapsed (finally pass client) = 0.
Proof.
  unfold finally, disconnect.
  destruct (interface (client_at_finally pass client)); [|done].
  by destruct (close_returns pass).
Qed.

Lemma connect_attempts_finally pass client :
  connect_attempts (finally pass client) = 0%nat.
Proof.
  unfold finally, disconnect.
  destruct (interface (client_at_finally pass client)); [|done].
  by destruct (close_returns pass).
Qed.

Ltac measure_pass :=
  unfold pass_events;
  destruct (outcome _) as [|?|?];
  cbn [connect new_client device_path interface fst snd];
  [ | | destruct (kept _), (discord_ready _)];
  repeat (rewrite connect_attempts_app || rewrite connect_attempts_polls
          || rewrite connect_attempts_notify_lost
          || rewrite connect_attempts_finally
          || rewrite elapsed_app || rewrite elapsed_polls
          || rewrite elapsed_notify_lost || rewrite elapsed_finally);
  cbn [connect_attempts elapsed];
  rewrite ?connect_attempts_finally, ?elapsed_finally.

(** A pass opens the device once. *)
Lemma pass_events_attempts pass :
  connect_attempts (pass_events config handler pass) = 1%nat.
Proof. measure_pass; reflexivity. Qed.

Lemma pass_events_elapsed pass :
  (0 ≤ elapsed (pass_events config handler pass))%Z.
Proof. measure_pass; lia. Qed.

Lemma run_failed_pass pass rest :
  ends_in_failure pass = true →
  run_meshtastic config handler (pass :: rest) =
    pass_events config handler pass ++
    (if running_after pass then [EvSleep (reconnect_delay config)] else []) ++
    run_meshtastic config handler rest.
Proof.
  unfold ends_in_failure. intros Hfail%negb_true_iff.
  cbn [run_meshtastic]. by rewrite Hfail.
Qed.

Lemma run_failed_passes before rest :
  forallb ends_in_failure before = true →
  run_meshtastic config handler (before ++ rest) =
    run_meshtastic config handler before ++ run_meshtastic config handler rest.
Proof.
  induction before as [|pass before IH]; [done|].
  intros [Hpass Hbefore]%andb_true_iff.
  rewrite <- app_comm_cons, !(run_failed_pass _ _ Hpass), (IH Hbefore).
  by rewrite <- !app_assoc.
Qed.

(** C6: a pass of the supervisor loop that ends in failure while the flag
    is set is followed by a sleep of the configured reconnect delay before
    anything of the next pass happens, its connect attempt included; so
    over passes that all fail with the flag set there is one connect
    attempt per pass and the loop takes at least as many reconnect delays
    as there are passes. *)
Theorem backoff_before_reconnect
    (before : list iteration) (pass : iteration) (after : list iteration) :
  forallb ends_in_failure before = true →
  ends_in_failure pass = true →
  running_after pass = true →
  (run_meshtastic config handler (before ++ pass :: after) =
     run_meshtastic config handler before ++
     pass_events config handler pass ++
     [EvSleep (reconnect_delay config)] ++
     run_meshtastic config handler after ∧
   connect_attempts (pass_events config handler pass) = 1%nat) ∧
  (∀ failures,
     forallb (λ p, ends_in_failure p && running_after p) failures = true →
     connect_attempts (run_meshtastic config handler failures)
       = length failures ∧
     (Z.of_nat (length failures) * reconnect_delay config
        ≤ elapsed (run_meshtastic config handler failures))%Z).
Proof.
  intros Hbefore Hpass Hflag. split.
  - split; [|apply pass_events_attempts].
    by rewrite (run_failed_passes _ _ Hbefore), (run_failed_pass _ _ Hpass),
      Hflag.
  - induction failures as [|p failures IH]; [simpl; split; [done|lia]|].
    intros [[Hp Hrun]%andb_true_iff Hrest]%andb_true_iff.
    destruct (IH Hrest) as [IHn IHt].
    rewrite (run_failed_pass _ _ Hp), Hrun.
    rewrite !connect_attempts_app, !elapsed_app, pass_events_attempts.
    pose proof (pass_events_elapsed p).
    simpl length. simpl connect_attempts. simpl elapsed. split; lia.
Qed.

End Supervisor.

(** Three connect failures and then a success: four connect attempts,
    three error notices handed to the event loop, and three reconnect
    delays besides the two polls. *)
Example three_failures_then_success :
  let trace :=
    run_meshtastic Examples.config Examples.handler_ready
      [Examples.failing_pass; Examples.failing_pass; Examples.failing_pass;
       Examples.final_pass] in
  connect_attempts trace = 4%nat ∧
  List.filter
    (λ e, match e with EvRunCoroutine _ => true | _ => false end) trace =
    replicate 3
      (EvRunCoroutine (send_error_notification connection_lost_notice)) ∧
  elapsed trace = 3 * 5 + 2.
Proof. repeat split. Qed.

Lemma backoff_before_reconnect_witness :
  run_meshtastic Examples.config new_handler
    ([Examples.failing_pass; Examples.failing_pass] ++
     Examples.failing_pass :: [Examples.final_pass]) =
    run_meshtastic Examples.config new_handler
      [Examples.failing_pass; Examples.failing_pass] ++
    pass_events Examples.config new_handler Examples.failing_pass ++
    [EvSleep 5] ++
    run_meshtastic Examples.config new_handler [Examples.final_pass] ∧
  connect_attempts
    (pass_events Examples.config new_handler Examples.failing_pass) = 1%nat.
Proof.
  exact (proj1 (backoff_before_reconnect Examples.config new_handler
                  [Examples.failing_pass; Examples.failing_pass]
                  Examples.failing_pass [Examples.final_pass]
                  eq_refl eq_refl eq_refl)).
Defined.

(** * Further properties of the code *)

(** ** The packet classifier, by kind *)

Section ClassifierCases.

Implicit Types (interface : option SerialInterface) (now : Z).
Implicit Types (packet decoded : gmap string pyval).

(** The classifier on a packet whose kind is neither of the two it
    handles. *)
Lemma process_unhandled interface now packet :
  (∀ v, portnum_of packet = Some v →
        py_eq_str v "TEXT_MESSAGE_APP" = false ∧
        py_eq_str v "TELEMETRY_APP" = false) →
  _process_packet interface now packet = None.
Proof.
  unfold portnum_of, _process_packet, _process_packet_body.
  destruct (packet !! "decoded") as [[| | | | |decoded]|]; try reflexivity.
  intros H. destruct (H _ eq_refl) as [Htext Htel]. simpl.
  rewrite Htext, Htel. by repeat case_match.
Qed.

(** X1: the classifier returns a message exactly for a text-message packet
    and for a telemetry packet whose device metrics are a non-empty
    mapping. *)
Theorem classification_yields_message_iff interface now packet :
  is_Some (_process_packet interface now packet) ↔
    portnum_of packet = Some (PStr "TEXT_MESSAGE_APP") ∨
    (portnum_of packet = Some (PStr "TELEMETRY_APP") ∧
     ∃ device_metrics,
       device_metrics_of packet = Some device_metrics ∧ device_metrics ≠ ∅).
Proof.
  destruct (portnum_of packet) as [v|] eqn:Hkind.
  - destruct (portnum_of_decoded _ _ Hkind) as (decoded & Hdec & Hport).
    destruct (py_eq_str v "TEXT_MESSAGE_APP") eqn:Htext.
    { apply py_eq_str_true in Htext. rewrite Htext in Hport |- *.
      rewrite (process_text_message _ _ _ _ Hdec Hport).
      split; [by left | by eauto]. }
    destruct (py_eq_str v "TELEMETRY_APP") eqn:Htel.
    { apply py_eq_str_true in Htel. rewrite Htel in Hport |- *.
      rewrite (process_telemetry _ _ _ _ Hdec Hport).
      destruct (device_metrics_of packet) as [dm|].
      - case_bool_decide as Hsize.
        + apply map_size_empty_iff in Hsize. split.
          * by intros [? ?].
          * intros [[=]|[_ (dm' & [= <-] & Hne)]]. done.
        + split; [|by eauto]. intros _. right. split; [done|].
          exists dm. split; [done|]. by rewrite <- map_size_empty_iff.
      - split; [by intros [? ?]|]. by intros [[=]|[_ (? & ? & ?)]]. }
    rewrite process_unhandled.
    + split; [by intros [? ?]|].
      apply py_eq_str_false in Htext, Htel.
      intros [[= ->]|[[= ->] _]]; done.
    + intros v' Hv'. rewrite Hkind in Hv'. by injection Hv' as <-.
  - rewrite process_unhandled; [|by rewrite Hkind].
    split; [by intros [? ?]|]. by intros [?|[? _]].
Qed.

(** X2: the text of a text-message packet reaches the message as it is,
    whatever its length, and the message embeds the packet. *)
Theorem text_is_never_truncated interface now packet decoded (text : string) :
  packet !! "decoded" = Some (PDict decoded) →
  decoded !! "portnum" = Some (PStr "TEXT_MESSAGE_APP") →
  decoded !! "text" = Some (PStr text) →
  ∃ m, _process_packet interface now packet = Some m ∧
       m !! "text" = Some (PStr text) ∧
       m !! "raw_packet" = Some (PDict packet).
Proof.
  intros Hdec Hport Htext. eexists. split.
  - apply (process_text_message _ _ _ _ Hdec).
    unfold dict_get. by rewrite Hport.
  - rewrite lookup_direct_message_text. unfold dict_get. rewrite Htext.
    split; [done|]. unfold direct_message_dict. by simplify_map_eq.
Qed.

Lemma text_is_never_truncated_witness :
  ∃ m, _process_packet None 0 Examples.long_text_packet = Some m ∧
       m !! "text" = Some (PStr Examples.long_message) ∧
       m !! "raw_packet" = Some (PDict Examples.long_text_packet).
Proof.
  apply (text_is_never_truncated None 0 Examples.long_text_packet
           {[ "portnum" := PStr "TEXT_MESSAGE_APP";
              "text" := PStr Examples.long_message ]}); reflexivity.
Defined.

Lemma direct_message_dict_raw a b c d e packet packet' :
  direct_message_dict a b c d e packet' =
    <["raw_packet" := PDict packet']> (direct_message_dict a b c d e packet).
Proof.
  apply map_eq. intros i. unfold direct_message_dict.
  rewrite !lookup_insert. repeat case_decide; by simplify_eq.
Qed.

Lemma telemetry_dict_raw a b c d e f g h packet packet' :
  telemetry_dict a b c d e f g h packet' =
    <["raw_packet" := PDict packet']> (telemetry_dict a b c d e f g h packet).
Proof.
  apply map_eq. intros i. unfold telemetry_dict.
  rewrite !lookup_insert. repeat case_decide; by simplify_eq.
Qed.

(** X3: a key of the packet other than the five the classifier reads
    changes nothing in the result but the packet it embeds. *)
Theorem classification_ignores_other_keys interface now packet k v :
  k ∉ ["decoded"; "fromId"; "from"; "toId"; "rxTime"] →
  _process_packet interface now (<[k:=v]> packet) =
    (λ m, <["raw_packet" := PDict (<[k:=v]> packet)]> m)
      <$> _process_packet interface now packet.
Proof.
  intros Hk.
  assert (∀ s, s ∈ ["decoded"; "fromId"; "from"; "toId"; "rxTime"] →
               <[k:=v]> packet !! s = packet !! s) as Hsame.
  { intros s Hs. apply lookup_insert_ne. by intros ->. }
  unfold _process_packet, _process_packet_body, dict_get.
  rewrite !Hsame by (repeat constructor).
  destruct (packet !! "decoded") as [[| | | | |decoded]|]; try reflexivity.
  simpl. destruct (py_eq_str _ "TEXT_MESSAGE_APP").
  { simpl. by rewrite (direct_message_dict_raw _ _ _ _ _ packet). }
  destruct (py_eq_str _ "TELEMETRY_APP"); [|by repeat case_match].
  destruct (dict_get decoded "telemetry" (PDict ∅)) as [| | | | |tel];
    try reflexivity.
  simpl.
  change (dict_get tel "deviceMetrics" PNone)
    with (default PNone (tel !! "deviceMetrics")).
  destruct (tel !! "deviceMetrics") as [[| | | | |dm]|]; simpl;
    try reflexivity.
  - by destruct b.
  - by destruct (negb _).
  - by destruct (negb _).
  - by destruct (negb _).
  - destruct (bool_decide _); simpl; [reflexivity|].
    by rewrite (telemetry_dict_raw _ _ _ _ _ _ _ _ packet).
Qed.

Lemma classification_ignores_other_keys_witness :
  _process_packet None 0 (<["hopLimit" := PInt 3]> Examples.text_packet) =
    (λ m, <["raw_packet" :=
             PDict (<["hopLimit" := PInt 3]> Examples.text_packet)]> m)
      <$> _process_packet None 0 Examples.text_packet.
Proof.
  apply classification_ignores_other_keys.
  intros H. repeat (apply elem_of_cons in H as [H|H]; [discriminate H|]).
  by apply elem_of_nil in H.
Defined.

Lemma resolve_from_name_two_entries iface iface' from_id from_num :
  (∀ key, hash_key from_id = Ok (Some key) ∨ hash_key from_num = Ok (Some key) →
          assoc key (nodes iface) = assoc key (nodes iface')) →
  resolve_from_name (Some iface) from_id from_num =
  resolve_from_name (Some iface') from_id from_num.
Proof.
  intros Hsame. unfold resolve_from_name, cached_node.
  assert (∀ k, k = from_id ∨ k = from_num →
               nodes_get iface k = nodes_get iface' k) as Hget.
  { intros k Hk. unfold nodes_get.
    destruct (hash_key k) as [[key|]|e] eqn:Hkey; simpl; try reflexivity.
    rewrite (Hsame key); [done|]. by destruct Hk as [-> | ->]; [left|right]. }
  by rewrite (Hget from_id), (Hget from_num) by auto.
Qed.

(** X4: of the interface, the classifier reads the cache entries under
    the sender's display id and under its number, and nothing else. *)
Theorem classification_reads_two_cache_entries iface iface' now packet :
  (∀ key,
     hash_key (dict_get packet "fromId" (PStr "Unknown")) = Ok (Some key) ∨
     hash_key (dict_get packet "from" (PInt 0)) = Ok (Some key) →
     assoc key (nodes iface) = assoc key (nodes iface')) →
  _process_packet (Some iface) now packet =
  _process_packet (Some iface') now packet.
Proof.
  intros Hsame. unfold _process_packet, _process_packet_body, _process_packet_body.
  by rewrite (resolve_from_name_two_entries _ _ _ _ Hsame).
Qed.

Lemma classification_reads_two_cache_entries_witness :
  _process_packet (Some Examples.cache_by_id) 0 Examples.text_packet =
  _process_packet (Some Examples.cache_two_nodes) 0 Examples.text_packet.
Proof.
  apply classification_reads_two_cache_entries.
  intros key [H|H]; vm_compute in H; injection H as <-; reflexivity.
Defined.

Lemma py_or_truthy a b : truthy b = true → truthy (py_or a b) = true.
Proof. intros Hb. unfold py_or. by destruct (truthy a) eqn:Ha. Qed.

Lemma resolve_from_name_truthy interface from_id from_num :
  truthy from_id = true →
  truthy (resolve_from_name interface from_id from_num) = true.
Proof.
  intros Hid. unfold resolve_from_name.
  destruct interface as [iface|]; [|done].
  destruct (truthy from_num); [|done].
  destruct (cached_node iface from_id from_num) as [node|e]; [|done].
  simpl. rewrite name_of_node_cases.
  destruct node as [| | | | |entry]; try done.
  destruct (entry !! "user") as [[| | | | |user]|]; try done.
  by do 2 apply py_or_truthy.
Qed.

(** X5: the sender name of a message is never empty or false unless the
    packet's own sender id is: names that are missing or empty in the
    cache fall back to it, and a packet without a sender id is from
    "Unknown". *)
Theorem sender_name_is_never_empty interface now packet m :
  _process_packet interface now packet = Some m →
  truthy (dict_get packet "fromId" (PStr "Unknown")) = true →
  ∃ name, m !! "from_id" = Some name ∧ truthy name = true.
Proof.
  intros Hm Hid. destruct (process_packet_common _ _ _ _ Hm) as [Hname _].
  eexists. split; [exact Hname|]. by apply resolve_from_name_truthy.
Qed.

Lemma sender_name_is_never_empty_witness :
  ∃ name,
    Examples.text_message (PStr "!a1b2") 0 !! "from_id" = Some name ∧
    truthy name = true.
Proof.
  apply (sender_name_is_never_empty (Some Examples.cache_empty_names) 0
           Examples.text_packet); reflexivity.
Defined.

End ClassifierCases.

(** ** From a received packet to the event loop *)

Section Ingestion.

Implicit Types (self handler : MessageHandler) (coro : coroutine).
Implicit Types (packet message_data : gmap string pyval).

(** A schedule call never raises and never changes the handler; it hands
    the coroutine to the event loop when the loop is set and not closed,
    and otherwise hands over nothing and logs one error. *)
Lemma schedule_hands_over_or_logs self coro :
  ∃ evs,
    _schedule_discord_task self coro = (Ok tt, self, evs) ∧
    match loop self with
    | Some l =>
        if is_closed l
        then evs = [EvLog ERROR "Error scheduling Discord task"]
        else evs = [EvRunCoroutine coro]
    | None =>
        evs = [EvLog ERROR "Event loop not set, cannot schedule Discord task"]
    end.
Proof.
  unfold _schedule_discord_task, run_coroutine_threadsafe.
  destruct (loop self) as [l|]; [|by eexists].
  destruct (is_closed l); by eexists.
Qed.

Lemma schedule_returns self coro :
  ∃ evs, _schedule_discord_task self coro = (Ok tt, self, evs).
Proof.
  unfold _schedule_discord_task, run_coroutine_threadsafe.
  destruct (loop self) as [l|]; [|by eexists].
  destruct (is_closed l); by eexists.
Qed.

Lemma handle_message_typed self message_data coro kind :
  message_data !! "type" = Some (PStr kind) →
  (kind = "direct_message" ∧ coro = send_direct_message message_data) ∨
  (kind = "telemetry" ∧ coro = send_telemetry message_data) →
  handle_message self message_data =
    (Ok tt, (_schedule_discord_task self coro).2).
Proof.
  intros Htype Hkind. unfold handle_message, dict_get. rewrite Htype.
  destruct (schedule_returns self coro) as (evs & Hevs).
  destruct Hkind as [[-> ->]|[-> ->]]; simpl; by rewrite Hevs.
Qed.


(** The two shapes of a message of the classifier. *)
Lemma process_packet_some interface now packet m :
  _process_packet interface now packet = Some m →
  (portnum_of packet = Some (PStr "TEXT_MESSAGE_APP") ∧
   m !! "type" = Some (PStr "direct_message")) ∨
  (portnum_of packet = Some (PStr "TELEMETRY_APP") ∧
   m !! "type" = Some (PStr "telemetry")).
Proof.
  intros Hm.
  destruct (portnum_of packet) as [v|] eqn:Hkind.
  - destruct (portnum_of_decoded _ _ Hkind) as (decoded & Hdec & Hport).
    destruct (py_eq_str v "TEXT_MESSAGE_APP") eqn:Htext.
    { apply py_eq_str_true in Htext. rewrite Htext in Hport |- *.
      rewrite (process_text_message _ _ _ _ Hdec Hport) in Hm.
      injection Hm as <-. left. split; [done|].
      apply lookup_direct_message_type. }
    destruct (py_eq_str v "TELEMETRY_APP") eqn:Htel.
    { apply py_eq_str_true in Htel. rewrite Htel in Hport |- *.
      rewrite (process_telemetry _ _ _ _ Hdec Hport) in Hm.
      destruct (device_metrics_of packet); [|discriminate].
      destruct (bool_decide _); [discriminate|].
      injection Hm as <-. right. split; [done|].
      apply lookup_telemetry_fields. }
    rewrite process_unhandled in Hm; [discriminate|].
    intros v' Hv'. rewrite Hkind in Hv'. by injection Hv' as <-.
  - rewrite process_unhandled in Hm; [discriminate|]. by rewrite Hkind.
Qed.

(** X7: with the event loop set and not closed, a received packet hands
    exactly one coroutine to the loop when the classifier returns a
    message, [send_direct_message] for a text message and
    [send_telemetry] for telemetry, each with that message, and does
    nothing else; a packet that is no message hands nothing to the loop:
    when the classification returns [None] nothing happens at all, and
    when the classification raises the error is logged and nothing else
    happens. *)
Theorem received_packet_schedules_its_message
    (client : MeshtasticClient) handler l now packet :
  loop handler = Some l →
  is_closed l = false →
  match _process_packet_body (interface client) now packet with
  | Ok (Some m) =>
      _process_packet (interface client) now packet = Some m ∧
      ((portnum_of packet = Some (PStr "TEXT_MESSAGE_APP") ∧
        _on_receive client now (handle_message handler) packet =
          [EvRunCoroutine (send_direct_message m)]) ∨
       (portnum_of packet = Some (PStr "TELEMETRY_APP") ∧
        _on_receive client now (handle_message handler) packet =
          [EvRunCoroutine (send_telemetry m)]))
  | Ok None =>
      _process_packet (interface client) now packet = None ∧
      _on_receive client now (handle_message handler) packet = []
  | Raise _ =>
      _process_packet (interface client) now packet = None ∧
      _on_receive client now (handle_message handler) packet =
        [EvLog ERROR "Error processing packet"]
  end.
Proof.
  intros Hloop Hopen. unfold _on_receive, _process_packet_log.
  destruct (_process_packet_body (interface client) now packet)
    as [[m|]|e] eqn:Hbody.
  2, 3: by unfold _process_packet; rewrite Hbody.
  assert (_process_packet (interface client) now packet = Some m) as Hm
    by (by unfold _process_packet; rewrite Hbody).
  split; [exact Hm|]. rewrite Hm. cbn [app].
  assert (∀ coro, (_schedule_discord_task handler coro).2
                  = [EvRunCoroutine coro]) as Hsched.
  { intros coro. unfold _schedule_discord_task, run_coroutine_threadsafe.
    by rewrite Hloop, Hopen. }
  assert (truthy (PDict m) = true) as ->.
  { apply truthy_dict. intros ->.
    destruct (process_packet_some _ _ _ _ Hm) as [[_ H]|[_ H]];
      by rewrite lookup_empty in H. }
  destruct (process_packet_some _ _ _ _ Hm) as [[Hkind Htype]|[Hkind Htype]].
  - left. split; [done|].
    rewrite (handle_message_typed handler m (send_direct_message m) _ Htype)
      by (by left).
    by rewrite Hsched.
  - right. split; [done|].
    rewrite (handle_message_typed handler m (send_telemetry m) _ Htype)
      by (by right).
    by rewrite Hsched.
Qed.

Lemma received_packet_schedules_its_message_witness :
  _on_receive Examples.connected_client 0
    (handle_message Examples.handler_ready) Examples.text_packet =
    [EvRunCoroutine
       (send_direct_message (Examples.text_message (PStr "Alice") 0))] ∧
  _on_receive Examples.connected_client 0
    (handle_message Examples.handler_ready) Examples.nodeinfo_packet = [] ∧
  _on_receive Examples.connected_client 0
    (handle_message Examples.handler_ready) Examples.malformed_packet =
    [EvLog ERROR "Error processing packet"].
Proof.
  split; [|split].
  - destruct (received_packet_schedules_its_message Examples.connected_client
                Examples.handler_ready Examples.open_loop 0
                Examples.text_packet eq_refl eq_refl) as [_ [[_ H]|[H _]]].
    + exact H.
    + discriminate H.
  - exact (proj2 (received_packet_schedules_its_message
                    Examples.connected_client
                    Examples.handler_ready Examples.open_loop 0
                    Examples.nodeinfo_packet eq_refl eq_refl)).
  - exact (proj2 (received_packet_schedules_its_message
                    Examples.connected_client
                    Examples.handler_ready Examples.open_loop 0
                    Examples.malformed_packet eq_refl eq_refl)).
Defined.

End Ingestion.

(** ** The life of a client *)

Section ClientLifecycle.

(** X8: whatever the client was before, [is_connected] after [connect]
    says what [connect] returned. After a failed connect the client
    refuses to send and to list nodes, and calls the interface for
    neither, even when one was created. After a successful connect
    [send_text] calls [sendText] of the interface that was created, once,
    and returns whether that call returned, and [list_nodes] gives the
    records of its node cache. *)
Theorem connect_result_is_connected
    (self : MeshtasticClient) (o : open_outcome) (text : string)
    (destination : option string) :
  let '(ok, self', evs) := connect self o in
  is_connected self' = ok ∧
  (ok = false →
   send_text self' text destination =
     (false, [EvLog ERROR "Cannot send message: not connected to device"]) ∧
   list_nodes self' =
     ([], [EvLog ERROR "Cannot list nodes: not connected to device"])) ∧
  (ok = true →
   ∃ iface,
     interface self' = Some iface ∧
     (send_text self' text destination).1 = sendText_ok iface text ∧
     List.filter is_send_text (send_text self' text destination).2 =
       [EvSendText text
          (match destination with
           | Some d => if String.eqb d EmptyString then None else Some d
           | None => None
           end)] ∧
     list_nodes self' = (map snd (nodes iface), [])).
Proof.
  destruct o as [|iface|iface]; simpl;
    unfold is_connected, send_text, list_nodes; simpl.
  - destruct (bool_decide (is_Some (interface self))); by repeat split.
  - by repeat split.
  - split; [done|]. split; [done|]. intros _. exists iface.
    split; [done|]. by destruct (sendText_ok iface text).
Qed.

Lemma connect_result_is_connected_witness :
  send_text (connect Examples.connected_client OpenRaises).1.2 "hello" None =
    (false, [EvLog ERROR "Cannot send message: not connected to device"]) ∧
  (send_text
     (connect (new_client "/dev/ttyACM0")
        (Opened Examples.cache_two_nodes)).1.2 "hello" None).1 = false.
Proof.
  split.
  - pose proof (connect_result_is_connected Examples.connected_client
                  OpenRaises "hello" None) as H.
    cbn [connect] in H. destruct H as (_ & Hfail & _).
    exact (proj1 (Hfail eq_refl)).
  - pose proof (connect_result_is_connected (new_client "/dev/ttyACM0")
                  (Opened Examples.cache_two_nodes) "hello" None) as H.
    cbn [connect] in H. destruct H as (_ & _ & Hok).
    destruct (Hok eq_refl) as (iface & Hiface & Hsend & _).
    injection Hiface as <-. exact Hsend.
Defined.

(** X9: [disconnect] calls [close()] once when there is an interface and
    not at all when there is none. When there is no interface or the call
    returns, the client is left without interface and not connected, and
    a second disconnect does nothing. When the call raises, the error is
    logged and the client is left as it was, still connected if it was,
    so that a second disconnect calls [close()] again. After a [connect]
    on a new client, successful or not, one [disconnect] calls [close()]
    exactly when the connect created an interface. *)
Theorem disconnect_closes_once
    (self : MeshtasticClient) (o : open_outcome)
    (close_returns again : bool) :
  let '(self', evs) := disconnect self close_returns in
  count_close evs = match interface self with
                    | Some _ => 1%nat
                    | None => 0%nat
                    end ∧
  (interface self = None ∨ close_returns = true →
   is_connected self' = false ∧
   interface self' = None ∧
   disconnect self' again = (self', [])) ∧
  (is_Some (interface self) → close_returns = false →
   self' = self ∧
   evs = [EvClose; EvLog ERROR "Error disconnecting from Meshtastic device"] ∧
   count_close (disconnect self' again).2 = 1%nat) ∧
  (interface self = None →
   count_close (disconnect (connect self o).1.2 close_returns).2 =
     match o with
     | OpenRaises => 0%nat
     | NodeInfoRaises _ | Opened _ => 1%nat
     end).
Proof.
  unfold disconnect, is_connected.
  destruct (interface self) as [iface|] eqn:Hiface, close_returns; simpl;
    (split; [done|]); (split; [|split]).
  all: try (intros [? | ?]; done).
  all: try (intros [? ?]; done).
  all: try (intros _ ?; done).
  all: try done.
  - intros _ _. split; [done|]. split; [done|].
    rewrite Hiface. by destruct again.
  - intros _. destruct o; simpl; by rewrite ?Hiface.
  - intros _. destruct o; simpl; by rewrite ?Hiface.
Qed.

Lemma disconnect_closes_once_witness :
  (disconnect Examples.connected_client false).1 = Examples.connected_client ∧
  count_close
    (disconnect (disconnect Examples.connected_client false).1 true).2
    = 1%nat ∧
  is_connected (disconnect Examples.connected_client true).1 = false.
Proof.
  pose proof (disconnect_closes_once Examples.connected_client OpenRaises
                false true) as Hraises.
  pose proof (disconnect_closes_once Examples.connected_client OpenRaises
                true true) as Hreturns.
  cbn [disconnect Examples.connected_client interface] in Hraises, Hreturns.
  destruct Hraises as (_ & _ & Hraises & _).
  destruct Hreturns as (_ & Hreturns & _).
  destruct (Hraises (ltac:(by eexists)) eq_refl) as (Hsame & _ & Hagain).
  split; [exact Hsame|]. split; [exact Hagain|].
  exact (proj1 (Hreturns (or_intror eq_refl))).
Defined.

End ClientLifecycle.

(** ** More of the command router *)

Section Router.

Implicit Types (self : DiscordClient) (mesh : option MeshtasticClient).

Lemma send_mesh_message_not_connected mesh message :
  (∀ client, mesh = Some client → is_connected client = false) →
  _send_mesh_message message mesh = (Ok false, []).
Proof.
  intros Hmesh. unfold _send_mesh_message.
  destruct mesh as [client|]; [|done]. by rewrite (Hmesh client eq_refl).
Qed.

Lemma list_nodes_not_connected mesh :
  (∀ client, mesh = Some client → is_connected client = false) →
  _list_nodes mesh = (Ok [], []).
Proof.
  intros Hmesh. unfold _list_nodes.
  destruct mesh as [client|]; [|done]. by rewrite (Hmesh client eq_refl).
Qed.

(** X10: with the bridge's callbacks registered and the client absent or
    not connected, a send command (of a message that is not too long) is
    answered with the failure reply and a nodes command with "no nodes";
    neither logs, sleeps, or reaches the interface. *)
Theorem commands_without_connection self mesh message :
  send_mesh_message_callback self = Some _send_mesh_message →
  list_nodes_callback self = Some _list_nodes →
  (∀ client, mesh = Some client → is_connected client = false) →
  (String.length message ≤ 240)%nat →
  send self mesh (channel_id self) message = [EvReply ReplySendFailed] ∧
  nodes_command self mesh (channel_id self) = [EvReply ReplyNoNodes].
Proof.
  intros Hsend Hlist Hmesh Hlen. unfold send, nodes_command.
  rewrite Z.eqb_refl, Hsend, Hlist. simpl.
  assert ((240 <? String.length message)%nat = false) as ->
    by (by apply Nat.ltb_ge).
  by rewrite (send_mesh_message_not_connected _ _ Hmesh),
    (list_nodes_not_connected _ Hmesh).
Qed.

Lemma commands_without_connection_witness :
  send Examples.discord_registered (Some (new_client "/dev/ttyACM0")) 42
    "hello" = [EvReply ReplySendFailed] ∧
  nodes_command Examples.discord_registered
    (Some (new_client "/dev/ttyACM0")) 42 = [EvReply ReplyNoNodes].
Proof.
  apply (commands_without_connection Examples.discord_registered
           (Some (new_client "/dev/ttyACM0")) "hello" eq_refl eq_refl).
  - by intros client [= <-].
  - vm_compute. lia.
Defined.

Lemma replies_app t1 t2 : replies (t1 ++ t2) = replies t1 ++ replies t2.
Proof.
  induction t1 as [|e t1 IH]; [done|]. destruct e; simpl; by rewrite ?IH.
Qed.

Lemma send_mesh_message_no_reply mesh message :
  ∃ r, (_send_mesh_message message mesh).1 = Ok r ∧
       replies (_send_mesh_message message mesh).2 = [].
Proof.
  unfold _send_mesh_message, send_text.
  destruct mesh as [client|]; [|by eexists].
  destruct (is_connected client); [|by eexists]. simpl.
  destruct (interface client) as [iface|]; [|by eexists].
  destruct (sendText_ok iface message); by eexists.
Qed.

Lemma list_nodes_no_reply mesh :
  ∃ l, (_list_nodes mesh).1 = Ok l ∧ replies (_list_nodes mesh).2 = [].
Proof.
  unfold _list_nodes, list_nodes.
  destruct mesh as [client|]; [|by eexists].
  destruct (is_connected client); [|by eexists]. simpl.
  destruct (interface client) as [iface|]; by eexists.
Qed.

(** X11: a send or nodes command issued in the configured channel is
    answered with exactly one reply, whatever the state of the callbacks
    and of the client; issued in any other channel it does nothing. *)
Theorem commands_reply_once self mesh ctx_channel_id message :
  send_mesh_message_callback self = None ∨
  send_mesh_message_callback self = Some _send_mesh_message →
  list_nodes_callback self = None ∨
  list_nodes_callback self = Some _list_nodes →
  (ctx_channel_id = channel_id self →
   length (replies (send self mesh ctx_channel_id message)) = 1%nat ∧
   length (replies (nodes_command self mesh ctx_channel_id)) = 1%nat) ∧
  (ctx_channel_id ≠ channel_id self →
   send self mesh ctx_channel_id message = [] ∧
   nodes_command self mesh ctx_channel_id = []).
Proof.
  intros Hsend Hlist. unfold send, nodes_command. split.
  - intros ->. rewrite Z.eqb_refl. simpl. split.
    + destruct Hsend as [-> | ->]; [done|].
      destruct (240 <? String.length message)%nat; [done|].
      destruct (send_mesh_message_no_reply mesh message) as (r & Hr & Hnone).
      destruct (_send_mesh_message message mesh) as [res evs].
      simpl in Hr, Hnone. subst res. by rewrite replies_app, Hnone.
    + destruct Hlist as [-> | ->]; [done|].
      destruct (list_nodes_no_reply mesh) as (l & Hl & Hnone).
      destruct (_list_nodes mesh) as [res evs].
      simpl in Hl, Hnone. subst res.
      destruct l as [|x l]; [by rewrite replies_app, Hnone|].
      destruct (sorted ← sorted_nodes (x :: l); node_fields (take 25 sorted));
        by rewrite replies_app, Hnone.
  - intros Hne. apply Z.eqb_neq in Hne. by rewrite Hne.
Qed.

Lemma commands_reply_once_witness :
  replies (send Examples.discord_registered
             (Some Examples.connected_client) 42 "hello") =
    [ReplySent "hello"] ∧
  send Examples.discord_registered (Some Examples.connected_client) 7
    "hello" = [].
Proof.
  destruct (commands_reply_once Examples.discord_registered
              (Some Examples.connected_client) 7 "hello")
    as [_ Hother]; [by right | by right |].
  split; [reflexivity|]. apply Hother. discriminate.
Defined.

End Router.

(** ** More of the node list *)

Section NodeListOrder.

Implicit Types (nodes_list sorted : list pyval).

(** The sort on node records, without the claim of stability. *)
Lemma sorted_nodes_records nodes_list :
  Forall node_record nodes_list →
  ∃ sorted,
    sorted_nodes nodes_list = Ok sorted ∧
    Permutation sorted nodes_list ∧
    StronglySorted desc sorted.
Proof.
  intros Hrecords.
  destruct (decorate_records nodes_list Hrecords)
    as (decorated & Hdec & Hmap & Hkeyed).
  destruct (sort_desc_spec decorated Hkeyed)
    as (sorted & Hsort & Hperm & Hdesc & _).
  exists (map snd sorted). split; [|split].
  - unfold sorted_nodes, sorted_reverse. rewrite Hdec. simpl.
    by rewrite Hsort.
  - rewrite <- Hmap. by apply Permutation_map.
  - by apply sorted_map_snd.
Qed.

Lemma sorted_app_desc (l1 l2 : list pyval) :
  StronglySorted desc (l1 ++ l2) →
  ∀ x y, x ∈ l1 → y ∈ l2 → desc x y.
Proof.
  induction l1 as [|z l1 IH]; simpl; intros Hsorted x y Hx Hy.
  - by apply elem_of_nil in Hx.
  - apply StronglySorted_inv in Hsorted as [Hsorted Hall].
    apply elem_of_cons in Hx as [->|Hx]; [|by eapply IH].
    rewrite Forall_forall in Hall. apply Hall.
    apply elem_of_app. by right.
Qed.

(** The field of a node record: built when the record's ['user'] is a
    mapping or is missing, with the record's signal quality; an
    [AttributeError] otherwise. *)
Lemma node_info_record node :
  node_record node →
  if user_is_mapping node then
    ∃ field, node_info node = Ok field ∧
             field_snr field ≫= as_number = snr_of node
  else node_info node = Raise AttributeError.
Proof.
  destruct node as [| | | | |d]; try done. intros Hrecord.
  unfold user_is_mapping, node_info, snr_of. cbn [py_get mbind res_bind bind].
  destruct (dict_get d "user" (PDict ∅)) as [| | | | |user]; try done.
  cbn [is_mapping py_get mbind res_bind bind]. unfold dict_get.
  simpl in Hrecord. destruct (d !! "snr") as [v|]; simpl.
  - destruct Hrecord as [q Hq].
    assert (is_not_none v = true) as -> by (by destruct v).
    assert (format_float v = Ok v) as ->.
    { unfold format_float, formats_as_float. rewrite Hq.
      by destruct v. }
    simpl. eexists. split; [reflexivity|]. by simpl.
  - eexists. split; [reflexivity|]. done.
Qed.

(** The loop over the records shown. *)
Lemma node_fields_records (shown : list pyval) :
  Forall node_record shown →
  if forallb user_is_mapping shown then
    ∃ fields,
      node_fields shown = Ok fields ∧
      Forall2 (λ node field,
                 node_info node = Ok field ∧
                 field_snr field ≫= as_number = snr_of node) shown fields
  else node_fields shown = Raise AttributeError.
Proof.
  induction 1 as [|node shown Hnode _ IH]; [by exists []|].
  cbn [forallb node_fields]. pose proof (node_info_record node Hnode) as Hinfo.
  destruct (user_is_mapping node); [|by rewrite Hinfo].
  destruct Hinfo as (field & Hfield & Hsnr). rewrite Hfield. simpl.
  destruct (forallb user_is_mapping shown).
  - destruct IH as (fields & -> & Hall). exists (field :: fields).
    split; [done|]. by constructor.
  - by rewrite IH.
Qed.



(** A node whose ['user'] is [None] makes the command fail, although the
    sort succeeds. *)
Example nodes_command_user_none :
  sorted_nodes [Examples.node_without_user] =
    Ok [Examples.node_without_user] ∧
  nodes_command Examples.discord_registered
    (Some Examples.client_without_user) 42 =
    [EvLog ERROR "Error in nodes command"; EvReply ReplyNodesError].
Proof. split; reflexivity. Qed.

Lemma sort_desc_sorted (l : list (pyval * pyval)) :
  Forall keyed l →
  StronglySorted (λ a b, desc a.2 b.2) l →
  sort_desc l = Ok l.
Proof.
  induction l as [|kx l IH]; [done|].
  intros [Hkx Hl]%Forall_cons [Hsorted Hall]%StronglySorted_inv.
  simpl. rewrite (IH Hl Hsorted). simpl.
  destruct l as [|ky l]; [done|].
  apply Forall_cons in Hl as [Hky _]. apply Forall_cons in Hall as [Hle _].
  simpl. rewrite (py_lt_numbers _ _ _ _ Hkx Hky). simpl.
  assert (Qle_bool (item_value ky) (item_value kx) = true) as ->; [|done].
  by apply Qle_bool_iff.
Qed.

Lemma sorted_of_map_snd (l : list (pyval * pyval)) :
  StronglySorted desc (map snd l) → StronglySorted (λ a b, desc a.2 b.2) l.
Proof.
  induction l as [|kx l IH]; simpl; [constructor|].
  intros [Hsorted Hall]%StronglySorted_inv. constructor; [by apply IH|].
  apply (proj1 (Forall_map _ _ _)) in Hall. exact Hall.
Qed.

(** X13: the sort is idempotent: a list of node records that is already
    in the order of the node list comes back unchanged, so sorting the
    output of the sort again gives the same list. *)
Theorem sorted_nodes_idempotent nodes_list sorted :
  Forall node_record nodes_list →
  sorted_nodes nodes_list = Ok sorted →
  sorted_nodes sorted = Ok sorted.
Proof.
  intros Hrecords Hsorted.
  destruct (sorted_nodes_records nodes_list Hrecords)
    as (sorted' & Hsorted' & Hperm & Hdesc).
  rewrite Hsorted in Hsorted'. injection Hsorted' as <-.
  assert (Forall node_record sorted) as Hrecords' by (by rewrite Hperm).
  destruct (decorate_records sorted Hrecords')
    as (decorated & Hdec & Hmap & Hkeyed).
  unfold sorted_nodes, sorted_reverse. rewrite Hdec. simpl.
  rewrite sort_desc_sorted; [by simpl; rewrite Hmap|done|].
  apply sorted_of_map_snd. by rewrite Hmap.
Qed.

Lemma sorted_nodes_idempotent_witness :
  sorted_nodes [Examples.node_strong; Examples.node_a; Examples.node_b;
                Examples.node_unknown] =
    Ok [Examples.node_strong; Examples.node_a; Examples.node_b;
        Examples.node_unknown].
Proof.
  apply (sorted_nodes_idempotent
           [Examples.node_unknown; Examples.node_a; Examples.node_strong;
            Examples.node_b]).
  - repeat constructor; vm_compute; eauto.
  - reflexivity.
Defined.

Lemma decorate_non_mapping nodes_list :
  existsb (λ x, negb (is_mapping x)) nodes_list = true →
  decorate snr_key nodes_list = Raise AttributeError.
Proof.
  induction nodes_list as [|x l IH]; [done|]. simpl.
  destruct x as [| | | | |d]; simpl; try reflexivity.
  intros Hl. by rewrite (IH Hl).
Qed.

(** X14: when one of the records is not a mapping the sort raises, and the
    nodes command answers with the error reply instead of a list. *)
Theorem nodes_command_rejects_non_mapping
    (self : DiscordClient) (mesh : option MeshtasticClient)
    (list_nodes : callback (list pyval)) nodes_list (evs : list event) :
  list_nodes_callback self = Some list_nodes →
  list_nodes mesh = (Ok nodes_list, evs) →
  existsb (λ x, negb (is_mapping x)) nodes_list = true →
  sorted_nodes nodes_list = Raise AttributeError ∧
  nodes_command self mesh (channel_id self) =
    evs ++ [EvLog ERROR "Error in nodes command"; EvReply ReplyNodesError].
Proof.
  intros Hcb Hlist Hbad.
  assert (sorted_nodes nodes_list = Raise AttributeError) as Hraise.
  { unfold sorted_nodes, sorted_reverse.
    by rewrite (decorate_non_mapping _ Hbad). }
  split; [done|]. unfold nodes_command.
  rewrite Z.eqb_refl, Hcb, Hlist. simpl.
  destruct nodes_list as [|x l]; [discriminate Hbad|]. by rewrite Hraise.
Qed.

Lemma nodes_command_rejects_non_mapping_witness :
  sorted_nodes [Examples.node_a; PNone] = Raise AttributeError ∧
  nodes_command
    {| channel_id := 42; send_mesh_message_callback := None;
       list_nodes_callback :=
         Some (λ _, (Ok [Examples.node_a; PNone], [])) |}
    None 42 =
    [] ++ [EvLog ERROR "Error in nodes command"; EvReply ReplyNodesError].
Proof.
  apply (nodes_command_rejects_non_mapping
           {| channel_id := 42; send_mesh_message_callback := None;
              list_nodes_callback :=
                Some (λ _, (Ok [Examples.node_a; PNone], [])) |}
           None (λ _, (Ok [Examples.node_a; PNone], []))
           [Examples.node_a; PNone] [] eq_refl eq_refl eq_refl).
Defined.

Lemma same_value_refl x : same_value (sort_value x) x = true.
Proof. unfold same_value. apply Qeq_bool_iff. reflexivity. Qed.

Lemma filter_same_value_head q x (l : list pyval) y (l' : list pyval) :
  List.filter (same_value q) (x :: l) = y :: l' →
  Forall (desc x) l →
  (sort_value y <= sort_value x)%Q ∧ same_value q y = true.
Proof.
  intros Hfilter Hall.
  assert (In y (List.filter (same_value q) (x :: l))) as Hin
    by (rewrite Hfilter; by left).
  apply filter_In in Hin as [[<-|Hin] Hq]; split; try done.
  - apply Qle_refl.
  - rewrite Forall_forall in Hall. apply Hall. by apply list_elem_of_In.
Qed.

(** Two lists in descending order with the same records of every signal
    quality, in the same order, are the same list. *)
Lemma stable_order_unique (l1 l2 : list pyval) :
  StronglySorted desc l1 → StronglySorted desc l2 →
  (∀ q, List.filter (same_value q) l1 = List.filter (same_value q) l2) →
  l1 = l2.
Proof.
  intros Hs1. revert l2.
  induction Hs1 as [|x l1 Hs1 IH Hall1]; intros l2 Hs2 Hsame.
  - destruct l2 as [|y l2]; [done|].
    specialize (Hsame (sort_value y)). simpl in Hsame.
    by rewrite same_value_refl in Hsame.
  - destruct Hs2 as [|y l2 Hs2 Hall2].
    { specialize (Hsame (sort_value x)). simpl in Hsame.
      by rewrite same_value_refl in Hsame. }
    assert (sort_value x == sort_value y)%Q as Hxy.
    { apply Qle_antisym.
      - pose proof (Hsame (sort_value x)) as H. simpl in H.
        rewrite same_value_refl in H. symmetry in H.
        destruct (filter_same_value_head _ _ _ _ _ H Hall2) as [Hle _].
        exact Hle.
      - pose proof (Hsame (sort_value y)) as H. simpl in H.
        rewrite (same_value_refl y) in H.
        destruct (filter_same_value_head _ _ _ _ _ H Hall1) as [Hle _].
        exact Hle. }
    assert (x = y) as ->.
    { pose proof (Hsame (sort_value x)) as H. simpl in H.
      rewrite same_value_refl in H.
      assert (same_value (sort_value x) y = true) as Hy.
      { unfold same_value. apply Qeq_bool_iff. by symmetry. }
      rewrite Hy in H. by injection H. }
    f_equal. apply IH; [done|]. intros q. specialize (Hsame q).
    simpl in Hsame. destruct (same_value q y); [by injection Hsame|done].
Qed.

(** The sort on node records, with its stability. *)
Lemma sorted_nodes_records_stable nodes_list :
  Forall node_record nodes_list →
  ∃ sorted,
    sorted_nodes nodes_list = Ok sorted ∧
    StronglySorted desc sorted ∧
    ∀ q, List.filter (same_value q) sorted =
         List.filter (same_value q) nodes_list.
Proof.
  intros Hrecords.
  destruct (decorate_records nodes_list Hrecords)
    as (decorated & Hdec & Hmap & Hkeyed).
  destruct (sort_desc_spec decorated Hkeyed)
    as (sorted & Hsort & Hperm & Hdesc & Hstable).
  exists (map snd sorted). split; [|split].
  - unfold sorted_nodes, sorted_reverse. rewrite Hdec. simpl.
    by rewrite Hsort.
  - by apply sorted_map_snd.
  - intros q. rewrite <- Hmap, !filter_map_snd. by rewrite Hstable.
Qed.

(** X24: the node list is the only list in descending order of signal
    quality that keeps, for every signal quality, the records of that
    quality in the order of the input; so the result does not depend on
    how the stable sort goes about it. *)
Theorem sorted_nodes_is_the_stable_order nodes_list (ordered : list pyval) :
  Forall node_record nodes_list →
  StronglySorted desc ordered →
  (∀ q, List.filter (same_value q) ordered =
        List.filter (same_value q) nodes_list) →
  sorted_nodes nodes_list = Ok ordered.
Proof.
  intros Hrecords Hdesc Hstable.
  destruct (sorted_nodes_records_stable nodes_list Hrecords)
    as (sorted & -> & Hdesc' & Hstable').
  f_equal. apply stable_order_unique; [done|done|].
  intros q. by rewrite Hstable', Hstable.
Qed.

Lemma sorted_nodes_is_the_stable_order_witness :
  sorted_nodes [Examples.node_unknown; Examples.node_strong] =
    Ok [Examples.node_strong; Examples.node_unknown].
Proof.
  apply sorted_nodes_is_the_stable_order.
  - repeat constructor; vm_compute; eauto.
  - repeat constructor. vm_compute. discriminate.
  - intros q. unfold same_value. simpl List.filter.
    destruct (Qeq_bool (sort_value Examples.node_strong) q) eqn:E1,
      (Qeq_bool (sort_value Examples.node_unknown) q) eqn:E2;
      try reflexivity.
    exfalso. apply Qeq_bool_iff in E1, E2. rewrite <- E2 in E1.
    vm_compute in E1. discriminate E1.
Defined.

End NodeListOrder.

(** ** The description of a telemetry embed *)

Section TelemetryDescription.

Implicit Types (v battery voltage uptime : pyval).

Lemma is_not_none_false v : is_not_none v = false ↔ v = PNone.
Proof. by destruct v. Qed.

Lemma power_parts_nil battery voltage :
  power_parts battery voltage = Some [] ↔ battery = PNone ∧ voltage = PNone.
Proof.
  unfold power_parts. split.
  - destruct (is_not_none battery) eqn:Hb, (is_not_none voltage) eqn:Hv;
      simpl; try (by destruct (formats_as_float voltage)); try done.
    intros _. by apply is_not_none_false in Hb, Hv.
  - by intros [-> ->].
Qed.

Lemma float_parts_nil line v : float_parts line v = Some [] ↔ v = PNone.
Proof.
  unfold float_parts. split.
  - destruct (is_not_none v) eqn:Hv; [by destruct (formats_as_float v)|].
    intros _. by apply is_not_none_false.
  - by intros ->.
Qed.

Lemma uptime_parts_nil uptime : uptime_parts uptime = Some [] ↔ uptime = PNone.
Proof.
  unfold uptime_parts. split.
  - destruct (is_not_none uptime) eqn:Hu.
    + by destruct (uptime_part uptime).
    + intros _. by apply is_not_none_false.
  - by intros ->.
Qed.

Lemma all_none_no_metrics (message_data : gmap string pyval) :
  Forall (λ k, dict_get message_data k PNone = PNone)
    ["battery_level"; "voltage"; "channel_utilization"; "air_util_tx";
     "uptime_seconds"] →
  telemetry_description message_data = Some NoMetricsAvailable.
Proof.
  intros H. unfold telemetry_description.
  apply Forall_cons in H as [-> H]. apply Forall_cons in H as [-> H].
  apply Forall_cons in H as [-> H]. apply Forall_cons in H as [-> H].
  apply Forall_cons in H as [-> _]. reflexivity.
Qed.

(** X15: the description of a telemetry embed is "No metrics available"
    exactly when all five metrics of the message are [None] or missing. *)
Theorem no_metrics_iff_all_none (message_data : gmap string pyval) :
  telemetry_description message_data = Some NoMetricsAvailable ↔
  Forall (λ k, dict_get message_data k PNone = PNone)
    ["battery_level"; "voltage"; "channel_utilization"; "air_util_tx";
     "uptime_seconds"].
Proof.
  unfold telemetry_description. split.
  - intros H.
    destruct (power_parts _ _) as [power|] eqn:Hp; [|done].
    destruct (float_parts ChannelPart _) as [channel|] eqn:Hc; [|done].
    destruct (float_parts AirPart _) as [air|] eqn:Ha; [|done].
    destruct (uptime_parts _) as [up|] eqn:Hu; [|done].
    simpl in H.
    destruct (power ++ channel ++ air ++ up) as [|part parts] eqn:Happ;
      [|done].
    apply app_eq_nil in Happ as [-> Happ].
    apply app_eq_nil in Happ as [-> Happ].
    apply app_eq_nil in Happ as [-> ->].
    apply power_parts_nil in Hp as [Hb Hv].
    apply float_parts_nil in Hc, Ha. apply uptime_parts_nil in Hu.
    by repeat constructor.
  - intros H.
    apply Forall_cons in H as [-> H]. apply Forall_cons in H as [-> H].
    apply Forall_cons in H as [-> H]. apply Forall_cons in H as [-> H].
    apply Forall_cons in H as [-> _]. reflexivity.
Qed.

Lemma py_positive_int (h : Z) : py_positive (PInt h) = Some (0 <? h)%Z.
Proof.
  unfold py_positive, Qle_bool. simpl. rewrite Z.mul_1_r. f_equal.
  destruct (Z.leb_spec h 0), (Z.ltb_spec 0 h); simpl; try done; lia.
Qed.

(** X16: an uptime of [z] seconds is shown as [z / 3600] hours and a
    number of minutes from 0 to 59, the two together being the uptime
    rounded down to the minute; the hours are shown only from one hour
    on. *)
Theorem uptime_in_hours_and_minutes (z : Z) :
  ∃ minutes,
    uptime_part (PInt z) =
      Some (UptimePart (if (3600 <=? z)%Z then Some (PInt (z / 3600)) else None)
              (PInt minutes)) ∧
    (0 ≤ minutes < 60)%Z ∧
    (z / 3600 * 3600 + minutes * 60 ≤ z
     < z / 3600 * 3600 + minutes * 60 + 60)%Z.
Proof.
  exists (z mod 3600 / 60)%Z. split; [|split].
  - unfold uptime_part, py_floordiv, py_mod. cbn [mbind option_bind].
    rewrite py_positive_int. cbn [mbind option_bind].
    assert ((0 <? z / 3600)%Z = (3600 <=? z)%Z) as ->; [|done].
    pose proof (Z.div_mod z 3600 ltac:(lia)).
    pose proof (Z.mod_pos_bound z 3600 ltac:(lia)).
    destruct (Z.ltb_spec 0 (z / 3600)), (Z.leb_spec 3600 z); try done; lia.
  - pose proof (Z.mod_pos_bound z 3600 ltac:(lia)). split.
    + apply Z.div_pos; lia.
    + apply Z.div_lt_upper_bound; lia.
  - pose proof (Z.div_mod z 3600 ltac:(lia)).
    pose proof (Z.div_mod (z mod 3600) 60 ltac:(lia)).
    pose proof (Z.mod_pos_bound (z mod 3600) 60 ltac:(lia)). lia.
Qed.

(** X17: a telemetry message that the classifier makes from a packet
    with none of the five device metrics is described as "No metrics
    available". *)
Theorem telemetry_without_metrics_has_no_lines
    (interface : option SerialInterface) (now : Z)
    (packet m : gmap string pyval) :
  portnum_of packet = Some (PStr "TELEMETRY_APP") →
  any_metric_present packet = false →
  _process_packet interface now packet = Some m →
  telemetry_description m = Some NoMetricsAvailable.
Proof.
  intros Hkind Hnone Hm.
  destruct (portnum_of_decoded _ _ Hkind) as (decoded & Hdec & Hport).
  rewrite (process_telemetry _ _ _ _ Hdec Hport) in Hm.
  unfold any_metric_present in Hnone.
  destruct (device_metrics_of packet) as [dm|]; [|discriminate].
  destruct (bool_decide _); [discriminate|]. injection Hm as <-.
  assert (∀ k, k ∈ metric_fields → dict_get dm k PNone = PNone) as Habsent.
  { intros k Hk. unfold dict_get.
    destruct (dm !! k) as [v|] eqn:Hv; [|done]. exfalso.
    assert (existsb (λ k, bool_decide (is_Some (dm !! k))) metric_fields
            = true) as Hex; [|congruence].
    apply existsb_exists. exists k. split; [by apply list_elem_of_In|].
    apply bool_decide_eq_true. eauto. }
  match goal with |- telemetry_description ?M = _ => remember M as m end.
  assert (m !! "battery_level" = Some (dict_get dm "batteryLevel" PNone) ∧
          m !! "voltage" = Some (dict_get dm "voltage" PNone) ∧
          m !! "channel_utilization" =
            Some (dict_get dm "channelUtilization" PNone) ∧
          m !! "air_util_tx" = Some (dict_get dm "airUtilTx" PNone) ∧
          m !! "uptime_seconds" = Some (dict_get dm "uptimeSeconds" PNone))
    as (Hb & Hv & Hc & Ha & Hu).
  { subst m. apply lookup_telemetry_fields. }
  assert (∀ k k', m !! k = Some (dict_get dm k' PNone) → k' ∈ metric_fields →
                  dict_get m k PNone = PNone) as Hfield.
  { intros k k' Hk Hk'. unfold dict_get at 1. rewrite Hk. simpl.
    by apply Habsent. }
  apply all_none_no_metrics.
  repeat (apply List.Forall_cons); [..|apply List.Forall_nil].
  - apply (Hfield _ _ Hb). apply list_elem_of_In. simpl. auto 10.
  - apply (Hfield _ _ Hv). apply list_elem_of_In. simpl. auto 10.
  - apply (Hfield _ _ Hc). apply list_elem_of_In. simpl. auto 10.
  - apply (Hfield _ _ Ha). apply list_elem_of_In. simpl. auto 10.
  - apply (Hfield _ _ Hu). apply list_elem_of_In. simpl. auto 10.
Qed.

Lemma telemetry_without_metrics_has_no_lines_witness :
  telemetry_description
    (telemetry_dict (PStr "!a1b2") (PInt 5) PNone PNone PNone PNone PNone
       (PInt 0) Examples.telemetry_packet_other) = Some NoMetricsAvailable.
Proof.
  exact (telemetry_without_metrics_has_no_lines None 0
           Examples.telemetry_packet_other _ eq_refl eq_refl eq_refl).
Defined.

End TelemetryDescription.

(** ** More of the connection supervisor *)

Section SupervisorTraces.

Variables (config : Config) (handler : MessageHandler).

Lemma coroutines_app t1 t2 :
  coroutines (t1 ++ t2) = coroutines t1 ++ coroutines t2.
Proof.
  induction t1 as [|e t1 IH]; [done|]. destruct e; simpl; by rewrite ?IH.
Qed.

Lemma count_close_app t1 t2 :
  count_close (t1 ++ t2) = (count_close t1 + count_close t2)%nat.
Proof.
  induction t1 as [|e t1 IH]; [done|]. destruct e; simpl; by rewrite ?IH.
Qed.

Lemma count_opened_app t1 t2 :
  count_opened (t1 ++ t2) = (count_opened t1 + count_opened t2)%nat.
Proof.
  induction t1 as [|e t1 IH]; [done|].
  destruct e as [| | |? []| | | | |]; simpl; by rewrite ?IH.
Qed.

Lemma sleeps_app t1 t2 : sleeps (t1 ++ t2) = sleeps t1 ++ sleeps t2.
Proof.
  induction t1 as [|e t1 IH]; [done|]. destruct e; simpl; by rewrite ?IH.
Qed.

Lemma polls_measures n :
  coroutines (replicate n (EvSleep 1)) = [] ∧
  count_close (replicate n (EvSleep 1)) = 0%nat ∧
  count_opened (replicate n (EvSleep 1)) = 0%nat ∧
  sleeps (replicate n (EvSleep 1)) = replicate n 1.
Proof.
  induction n as [|n (Hc & Hcl & Ho & Hs)]; [done|]. simpl.
  by rewrite Hs.
Qed.

Lemma notify_lost_measures :
  count_close (notify_lost handler) = 0%nat ∧
  count_opened (notify_lost handler) = 0%nat ∧
  sleeps (notify_lost handler) = [] ∧
  coroutines (notify_lost handler) =
    match loop handler with
    | Some l =>
        if is_closed l then []
        else [send_error_notification connection_lost_notice]
    | None => []
    end.
Proof.
  unfold notify_lost, send_error_to_discord, _schedule_discord_task,
    run_coroutine_threadsafe.
  destruct (loop handler) as [l|]; [|done]. by destruct (is_closed l).
Qed.

(** What one pass does, counted. *)
Lemma pass_events_measures pass :
  coroutines (pass_events config handler pass) =
    (if notified pass then coroutines (notify_lost handler) else []) ∧
  count_opened (pass_events config handler pass) =
    (if closes_interface pass || lost_outside pass then 1 else 0)%nat ∧
  count_close (pass_events config handler pass) =
    (if closes_interface pass then 1 else 0)%nat ∧
  Forall (λ d, d = 1) (sleeps (pass_events config handler pass)).
Proof.
  destruct notify_lost_measures as (Hcl & Ho & Hs & _).
  unfold pass_events, finally, client_at_finally, disconnected, notified,
    closes_interface, lost_outside.
  destruct (outcome pass) as [|?|?];
    cbn [connect new_client device_path interface fst snd];
    [ | | destruct (kept pass) as [n|n|n],
            (polls_measures n) as (Hpc & Hpcl & Hpo & Hps),
            (discord_ready pass)];
    destruct (disconnected_outside pass), (close_returns pass);
    cbn [disconnect interface fst snd negb orb];
    rewrite ?app_comm_cons, ?coroutines_app, ?count_close_app,
      ?count_opened_app, ?sleeps_app, ?Hcl, ?Ho, ?Hs, ?Hpc, ?Hpcl, ?Hpo, ?Hps;
    cbn [coroutines count_close count_opened sleeps app];
    rewrite ?app_nil_r, ?Nat.add_0_r;
    repeat split; try done;
    try (apply Forall_forall; intros d Hd%elem_of_replicate; tauto).
Qed.

Lemma run_cons pass rest :
  run_meshtastic config handler (pass :: rest) =
    pass_events config handler pass ++
    if leaves_loop pass then []
    else
      (if running_after pass then [EvSleep (reconnect_delay config)] else [])
      ++ run_meshtastic config handler rest.
Proof. reflexivity. Qed.

Lemma run_app_failures before rest :
  forallb ends_in_failure before = true →
  run_meshtastic config handler (before ++ rest) =
    run_meshtastic config handler before ++ run_meshtastic config handler rest.
Proof.
  induction before as [|pass before IH]; [done|].
  intros [Hpass Hbefore]%andb_true_iff.
  apply negb_true_iff in Hpass.
  rewrite <- app_comm_cons, !run_cons, Hpass, (IH Hbefore).
  by rewrite <- !app_assoc.
Qed.

(** X18: a pass that ends in [break] ends the loop: whatever the
    environment would do next, nothing more happens, no backoff sleep and
    no further connect attempt. The pass hands nothing to the event loop.
    When the shutdown that cleared the flag has disconnected the client
    before the [finally] runs, the loop closes nothing; otherwise the
    last call the loop makes is the [close()] of the [finally], followed
    only by the error log when that call raises. *)
Theorem break_ends_the_loop
    (before : list iteration) (pass : iteration) (after : list iteration) :
  forallb ends_in_failure before = true →
  leaves_loop pass = true →
  run_meshtastic config handler (before ++ pass :: after) =
    run_meshtastic config handler before ++ pass_events config handler pass ∧
  coroutines (pass_events config handler pass) = [] ∧
  if disconnected_outside pass
  then count_close (pass_events config handler pass) = 0%nat
  else
    ∃ trace,
      count_close trace = 0%nat ∧
      pass_events config handler pass =
        trace ++ EvClose ::
          (if close_returns pass then []
           else [EvLog ERROR "Error disconnecting from Meshtastic device"]).
Proof.
  intros Hbefore Hpass. split.
  { by rewrite (run_app_failures _ _ Hbefore), run_cons, Hpass, app_nil_r. }
  unfold leaves_loop in Hpass.
  unfold pass_events, finally, client_at_finally, disconnected.
  destruct (outcome pass) as [|?|iface]; try discriminate.
  destruct (kept pass) as [n|n|n]; try discriminate.
  destruct (polls_measures n) as (Hpc & Hpcl & _ & _).
  cbn [connect new_client device_path interface fst snd].
  split.
  - destruct (disconnected_outside pass), (close_returns pass),
      (discord_ready pass);
      cbn [disconnect interface fst snd];
      rewrite ?app_comm_cons, !coroutines_app, Hpc; reflexivity.
  - destruct (disconnected_outside pass).
    + destruct (discord_ready pass); cbn [disconnect interface fst snd];
        rewrite ?app_comm_cons, !count_close_app, Hpcl; reflexivity.
    + exists ([EvSubscribe; EvOpen (meshtastic_device config) true] ++
              (if discord_ready pass then [EvSetupCallbacks] else []) ++
              replicate n (EvSleep 1)).
      split.
      * rewrite !count_close_app, Hpcl. by destruct (discord_ready pass).
      * destruct (close_returns pass); cbn [disconnect interface fst snd];
          by rewrite <- !app_assoc.
Qed.

(** X19: with the event loop set and not closed, the loop hands exactly
    one error notice to the event loop for every pass in which the connect
    fails or the connection is found lost, and nothing else; a pass that
    ends in an exception or in [break] sends none. *)
Theorem one_notice_per_lost_connection
    (l : AbstractEventLoop) (failures : list iteration) :
  loop handler = Some l →
  is_closed l = false →
  forallb ends_in_failure failures = true →
  coroutines (run_meshtastic config handler failures) =
    replicate (length (List.filter notified failures))
      (send_error_notification connection_lost_notice) ∧
  ∀ pass after,
    leaves_loop pass = true →
    coroutines (run_meshtastic config handler (failures ++ pass :: after)) =
      coroutines (run_meshtastic config handler failures).
Proof.
  intros Hloop Hopen Hfail.
  assert (coroutines (notify_lost handler) =
          [send_error_notification connection_lost_notice]) as Hnotice.
  { destruct notify_lost_measures as (_ & _ & _ & ->).
    by rewrite Hloop, Hopen. }
  split.
  - induction failures as [|p failures IH]; [done|].
    apply andb_true_iff in Hfail as [Hp Hfail].
    apply negb_true_iff in Hp.
    rewrite run_cons, Hp, !coroutines_app, (IH Hfail).
    destruct (pass_events_measures p) as (-> & _).
    cbn [List.filter]. rewrite Hnotice.
    by destruct (notified p), (running_after p).
  - intros pass after Hpass.
    rewrite (run_app_failures _ _ Hfail), run_cons, Hpass, app_nil_r,
      coroutines_app.
    destruct (pass_events_measures pass) as (-> & _).
    assert (notified pass = false) as ->; [|by rewrite app_nil_r].
    unfold leaves_loop in Hpass. unfold notified.
    destruct (outcome pass); try discriminate.
    by destruct (kept pass).
Qed.

(** X20: the loop never calls [close()] more often than it created
    interfaces, and it calls it for every interface it created by the end
    of the pass that created it, whether the pass ends in a failure, an
    exception or [break], unless the client was disconnected from outside
    the loop before the [finally] ran: the connection was found lost, or a
    shutdown disconnected the client first. In each pass the interfaces
    created are those closed by the loop and, in a pass of the latter
    kind, one more. *)
Theorem every_interface_is_closed (passes : list iteration) :
  (count_close (run_meshtastic config handler passes) ≤
     count_opened (run_meshtastic config handler passes))%nat ∧
  (forallb (λ p, negb (lost_outside p)) passes = true →
   count_close (run_meshtastic config handler passes) =
     count_opened (run_meshtastic config handler passes)) ∧
  (∀ pass,
     count_opened (pass_events config handler pass) =
       (count_close (pass_events config handler pass) +
        if lost_outside pass then 1 else 0)%nat).
Proof.
  cut ((count_close (run_meshtastic config handler passes) ≤
          count_opened (run_meshtastic config handler passes))%nat ∧
       (forallb (λ p, negb (lost_outside p)) passes = true →
        count_close (run_meshtastic config handler passes) =
          count_opened (run_meshtastic config handler passes))).
  { intros [Hle Heq]. split; [exact Hle|]. split; [exact Heq|].
    intros pass. destruct (pass_events_measures pass) as (_ & -> & -> & _).
    unfold closes_interface.
    by destruct (outcome pass), (lost_outside pass). }
  induction passes as [|p passes [IHle IHeq]]; [done|].
  rewrite run_cons, count_close_app, count_opened_app.
  destruct (pass_events_measures p) as (_ & -> & -> & _).
  assert (∀ t, count_close
                 ((if running_after p
                   then [EvSleep (reconnect_delay config)] else []) ++ t)
               = count_close t) as Hcl by (by destruct (running_after p)).
  assert (∀ t, count_opened
                 ((if running_after p
                   then [EvSleep (reconnect_delay config)] else []) ++ t)
               = count_opened t) as Ho by (by destruct (running_after p)).
  split.
  - destruct (leaves_loop p); [|rewrite Hcl, Ho];
      destruct (closes_interface p), (lost_outside p); simpl; lia.
  - intros [Hp Hrest]%andb_true_iff. apply negb_true_iff in Hp.
    rewrite Hp, orb_false_r.
    destruct (leaves_loop p); [done|]. by rewrite Hcl, Ho, (IHeq Hrest).
Qed.

End SupervisorTraces.

Lemma break_ends_the_loop_witness :
  run_meshtastic Examples.config Examples.handler_ready
    ([Examples.failing_pass] ++ Examples.final_pass :: [Examples.failing_pass])
  = run_meshtastic Examples.config Examples.handler_ready
      [Examples.failing_pass] ++
    pass_events Examples.config Examples.handler_ready Examples.final_pass ∧
  count_close
    (pass_events Examples.config Examples.handler_ready Examples.final_pass)
  = 0%nat.
Proof.
  destruct (break_ends_the_loop Examples.config Examples.handler_ready
              [Examples.failing_pass] Examples.final_pass
              [Examples.failing_pass] eq_refl eq_refl)
    as (Hrun & _ & Hclose).
  split; [exact Hrun | exact Hclose].
Defined.

(** A break pass whose [finally] runs before the shutdown disconnects the
    client ends with the [close()] of the loop; a pass whose [close()]
    raises ends with the error log. *)
Example finally_closes_the_interface :
  last (pass_events Examples.config Examples.handler_ready
          Examples.early_break_pass) = Some EvClose ∧
  pass_events Examples.config Examples.handler_ready
    Examples.close_raises_pass =
    [EvSubscribe; EvOpen "/dev/ttyACM0" true;
     EvLog ERROR "Failed to connect to Meshtastic device";
     EvLog WARNING "Meshtastic connection lost.";
     EvRunCoroutine (send_error_notification connection_lost_notice);
     EvClose; EvLog ERROR "Error disconnecting from Meshtastic device"].
Proof. split; reflexivity. Qed.

Lemma every_interface_is_closed_witness :
  count_close
    (run_meshtastic Examples.config Examples.handler_ready
       [Examples.failing_pass; Examples.close_raises_pass;
        Examples.early_break_pass]) =
  count_opened
    (run_meshtastic Examples.config Examples.handler_ready
       [Examples.failing_pass; Examples.close_raises_pass;
        Examples.early_break_pass]) ∧
  count_opened
    (pass_events Examples.config Examples.handler_ready Examples.final_pass) =
  (count_close
     (pass_events Examples.config Examples.handler_ready Examples.final_pass)
   + 1)%nat.
Proof.
  destruct (every_interface_is_closed Examples.config Examples.handler_ready
              [Examples.failing_pass; Examples.close_raises_pass;
               Examples.early_break_pass]) as (_ & Hall & Hpass).
  split; [exact (Hall eq_refl) | exact (Hpass Examples.final_pass)].
Defined.

Lemma one_notice_per_lost_connection_witness :
  coroutines
    (run_meshtastic Examples.config Examples.handler_ready
       [Examples.failing_pass; Examples.failing_pass; Examples.failing_pass])
  = replicate 3 (send_error_notification connection_lost_notice).
Proof.
  exact (proj1 (one_notice_per_lost_connection Examples.config
                  Examples.handler_ready Examples.open_loop
                  [Examples.failing_pass; Examples.failing_pass;
                   Examples.failing_pass] eq_refl eq_refl eq_refl)).
Defined.

Section ValidatedConfig.

Lemma validated_delay (raw : Config) :
  (1 ≤ reconnect_delay (_validate raw))%Z.
Proof.
  unfold _validate. simpl.
  destruct (Z.ltb_spec (reconnect_delay raw) 1); lia.
Qed.

(** X21: with a validated configuration every sleep of the loop is at
    least one second long, so no sleep is ever asked for a negative
    time, and a pass that fails with the flag set is followed by a sleep
    of at least one second whatever the configured delay was. *)
Theorem validated_config_sleeps_at_least_a_second
    (raw : Config) (handler : MessageHandler) (passes : list iteration) :
  Forall (λ d, (1 ≤ d)%Z)
    (sleeps (run_meshtastic (_validate raw) handler passes)).
Proof.
  induction passes as [|p passes IH]; [constructor|].
  rewrite run_cons, !sleeps_app.
  destruct (pass_events_measures (_validate raw) handler p) as (_ & _ & _ & Hs).
  apply Forall_app. split.
  - eapply Forall_impl; [exact Hs|]. simpl. intros d ->. lia.
  - destruct (leaves_loop p); [constructor|]. rewrite sleeps_app.
    apply Forall_app. split; [|exact IH].
    destruct (running_after p); repeat constructor. apply validated_delay.
Qed.

(** X22: validation leaves a configuration with a reconnect delay of at
    least one second and a log level among the five known ones; it keeps
    values that are already valid, replaces a smaller delay by 5 and any
    other level by INFO, and validating twice changes nothing more. *)
Theorem validate_establishes_bounds (raw : Config) (log_level : string) :
  (1 ≤ reconnect_delay (_validate raw))%Z ∧
  ((1 ≤ reconnect_delay raw)%Z →
   reconnect_delay (_validate raw) = reconnect_delay raw) ∧
  ((reconnect_delay raw < 1)%Z → reconnect_delay (_validate raw) = 5) ∧
  meshtastic_device (_validate raw) = meshtastic_device raw ∧
  _validate (_validate raw) = _validate raw ∧
  validate_log_level log_level ∈ valid_log_levels ∧
  (log_level ∈ valid_log_levels → validate_log_level log_level = log_level) ∧
  (log_level ∉ valid_log_levels → validate_log_level log_level = "INFO") ∧
  validate_log_level (validate_log_level log_level) =
    validate_log_level log_level.
Proof.
  assert (existsb (String.eqb log_level) valid_log_levels = true ↔
          log_level ∈ valid_log_levels) as Hvalid.
  { rewrite existsb_exists. split.
    - intros (x & Hx & ->%String.eqb_eq). by apply list_elem_of_In.
    - intros H. exists log_level. split; [by apply list_elem_of_In|].
      apply String.eqb_refl. }
  assert (reconnect_delay (_validate raw) =
          if Z.ltb (reconnect_delay raw) 1 then 5 else reconnect_delay raw)
    as Hdelay by reflexivity.
  split; [apply validated_delay|].
  split.
  { intros H. rewrite Hdelay.
    destruct (Z.ltb_spec (reconnect_delay raw) 1); [lia|done]. }
  split.
  { intros H. rewrite Hdelay.
    destruct (Z.ltb_spec (reconnect_delay raw) 1); [done|lia]. }
  split; [reflexivity|].
  split.
  { unfold _validate. simpl. f_equal.
    destruct (Z.ltb_spec (reconnect_delay raw) 1); [reflexivity|].
    destruct (Z.ltb_spec (reconnect_delay raw) 1); [lia|done]. }
  split.
  { unfold validate_log_level.
    destruct (existsb (String.eqb log_level) valid_log_levels) eqn:E;
      [by apply Hvalid|]. apply list_elem_of_In. simpl. auto. }
  split.
  { intros H. unfold validate_log_level. by apply Hvalid in H as ->. }
  split.
  { intros H. unfold validate_log_level.
    destruct (existsb (String.eqb log_level) valid_log_levels) eqn:E;
      [|done]. exfalso. apply H. by apply Hvalid. }
  unfold validate_log_level.
  destruct (existsb (String.eqb log_level) valid_log_levels) eqn:E;
    [by rewrite E|reflexivity].
Qed.

End ValidatedConfig.

(** ** Startup *)

Section Startup.

Implicit Types (is_ready : nat → bool).

(** The wait: it sleeps one second after every call of [is_ready] that
    says no, stops at the first call that says yes, and gives up after
    [remaining] sleeps. *)
Lemma wait_ready_spec remaining is_ready calls :
  ∃ n,
    (n ≤ remaining)%nat ∧
    wait_ready remaining is_ready calls =
      (S (calls + n), replicate n (EvSleep 1)) ∧
    (∀ i, (i < n)%nat → is_ready (calls + i)%nat = false) ∧
    ((n < remaining)%nat → is_ready (calls + n)%nat = true).
Proof.
  revert calls. induction remaining as [|remaining IH]; intros calls; simpl.
  - exists 0%nat. rewrite Nat.add_0_r.
    destruct (is_ready calls); repeat split; (lia || done).
  - destruct (is_ready calls) eqn:Hready.
    + exists 0%nat. rewrite Nat.add_0_r. repeat split; (lia || done).
    + destruct (IH (S calls)) as (n & Hn & -> & Hno & Hyes).
      exists (S n). repeat split.
      * lia.
      * by rewrite Nat.add_succ_r.
      * intros [|i] Hi; [by rewrite Nat.add_0_r|].
        rewrite Nat.add_succ_r. apply Hno. lia.
      * intros Hlt. rewrite Nat.add_succ_r. apply Hyes. lia.
Qed.

(** X23: before the Meshtastic thread is started, [start] waits for the
    Discord client one second at a time, stops at the first answer "ready"
    and waits 30 seconds at most; it goes on to start the thread exactly
    when the client says "ready" at the check after the wait, and raises
    otherwise. *)
Theorem start_waits_for_ready is_ready :
  ∃ n,
    (n ≤ 30)%nat ∧
    (start_gate is_ready).2 = replicate n (EvSleep 1) ∧
    (∀ i, (i < n)%nat → is_ready i = false) ∧
    ((n < 30)%nat → is_ready n = true) ∧
    (start_gate is_ready).1 =
      (if is_ready (S n) then Ok tt else Raise RuntimeError).
Proof.
  destruct (wait_ready_spec 30 is_ready 0) as (n & Hn & Hwait & Hno & Hyes).
  exists n. unfold start_gate. rewrite Hwait. simpl.
  split; [done|]. split; [by destruct (is_ready (S n))|].
  split; [exact Hno|]. split; [exact Hyes|]. by destruct (is_ready (S n)).
Qed.

End Startup.
